(** * Credential and token lifecycle of the leamsp-api worker

  A shallow embedding of the request-path code that issues, checks and
  consumes credentials:

  - [src/middleware/rate-limit.ts]   the fixed-window rate limiter,
  - [src/utils/crypto.ts]            [generateToken], [sha256Hex],
  - [utils/token.ts]                 [generateVerificationToken], [verifyToken],
  - [controllers/AuthController]     verify-email, forgot-password,
                                     reset-password, login payload,
  - [controllers/id-card-controller] generate and verify.

  Times are JavaScript epoch milliseconds, modelled as [Z].  Numbers that
  the code treats as integers (ids, counters, windows) are [Z] as well. *)

From Stdlib Require Import ZArith Lia Bool Strings.Byte Strings.Ascii.
From stdpp Require Import gmap strings list fin_maps pretty.

Local Open Scope Z_scope.
Set Warnings "-register-all".

(** ** JavaScript values shared by all modules *)

Module Js.

(** JSON values as the handlers build them; an object keeps the order in
    which its keys were written. *)
Inductive Json :=
| JNull
| JBool (b : bool)
| JNum (n : Z)
| JStr (s : string)
| JObj (fields : list (string * Json)).

(** [obj.key] on a JSON value; [None] is JavaScript's [undefined]. *)
Fixpoint assoc (k : string) (fields : list (string * Json)) : option Json :=
  match fields with
  | [] => None
  | (k', v) :: rest => if String.eqb k k' then Some v else assoc k rest
  end.

Definition field (k : string) (j : Json) : option Json :=
  match j with
  | JObj fields => assoc k fields
  | _ => None
  end.

(** The keys of an object, in order: the shape a client can observe. *)
Definition keys (j : Json) : list string :=
  match j with
  | JObj fields => map fst fields
  | _ => []
  end.

(** Truthiness of an optional string: [undefined], [null] and the empty
    string are falsy. *)
Definition truthy (s : option string) : bool :=
  match s with
  | Some s => negb (String.eqb s "")
  | None => false
  end.

(** [a || b] on strings. *)
Definition or_else (a : option string) (b : string) : string :=
  match a with
  | Some s => if String.eqb s "" then b else s
  | None => b
  end.

(** [a ?? b]. *)
Definition nullish (a : option string) (b : string) : string :=
  match a with
  | Some s => s
  | None => b
  end.

(** [s.toLowerCase()], on the ASCII letters. *)
Definition lower_char (a : ascii) : ascii :=
  let n := nat_of_ascii a in
  if (65 <=? n)%nat && (n <=? 90)%nat then ascii_of_nat (n + 32) else a.

Fixpoint lower (s : string) : string :=
  match s with
  | EmptyString => EmptyString
  | String a rest => String (lower_char a) (lower rest)
  end.

(** [Math.ceil(a / b)] and [Math.floor(a / b)] for integers, [0 < b]. *)
Definition ceil_div (a b : Z) : Z := - ((- a) / b).
Definition floor_div (a b : Z) : Z := a / b.

(** [String(n)] for an integer. *)
Definition String_of (n : Z) : string := pretty n.

(** [new Date(ms).toISOString()] is injective on the millisecond count;
    the response keeps the count itself under this constructor. *)
Definition toISOString (ms : Z) : Json := JNum ms.

End Js.

(** ** HTTP responses *)

Module Http.
Import Js.

Record Response := mkResponse {
  status : Z;
  headers : list (string * string);
  body : Json
}.

(** [c.json(body, status)] with the headers prepared by [c.header]. *)
Definition json (prepared : list (string * string)) (b : Json) (st : Z) : Response :=
  {| status := st; headers := prepared; body := b |}.

(** [c.redirect(location)]. *)
Definition redirect (location : string) : Response :=
  {| status := 302; headers := [("Location", location)]; body := JNull |}.

(** Modelled from the spec: [~/utils/response] is not among the sources.
    The API documents and the rate limiter's own 429 body fix its two
    envelopes, [{success: true, data}] and [{success: false, error}];
    [success] defaults to status 200. *)
Definition success_with (data : Json) (st : Z) : Response :=
  json [] (JObj [("success", JBool true); ("data", data)]) st.

Definition success (data : Json) : Response := success_with data 200.

Definition error (err : Json) (st : Z) : Response :=
  json [] (JObj [("success", JBool false); ("error", err)]) st.

(** [c.header(name, value)]: a later write to the same name replaces the
    earlier one. *)
Definition set_header (name value : string) (hs : list (string * string))
  : list (string * string) :=
  List.filter (fun h => negb (String.eqb (fst h) name)) hs ++ [(name, value)].

Definition has_header (name : string) (hs : list (string * string)) : bool :=
  List.existsb (fun h => String.eqb (fst h) name) hs.

Definition get_header (name : string) (hs : list (string * string)) : option string :=
  snd <$> List.find (fun h => String.eqb (fst h) name) hs.

End Http.

(** ** [src/middleware/rate-limit.ts] *)

Module RateLimit.
Import Js Http.

Record Bucket := { tokens : Z; resetAt : Z }.

(** What the middleware reads of the request context. *)
Record Ctx := { cf_connecting_ip : option string; path : string }.

Record RateLimitOptions := {
  windowMs : Z;
  max : Z;
  key : option (Ctx -> string)
}.

(** [opts.key ?? (c => `${ip || "ip:unknown"}:${c.req.path}`)] *)
Definition getKey (opts : RateLimitOptions) (c : Ctx) : string :=
  match key opts with
  | Some f => f c
  | None => or_else (cf_connecting_ip c) "ip:unknown" +:+ ":" +:+ path c
  end.

(** The middleware either awaits [next()], having prepared some headers
    for the downstream response, or answers by itself. *)
Inductive Reply :=
| Next (prepared : list (string * string))
| Answer (r : Response).

Definition too_many : Json :=
  JObj [("success", JBool false); ("error", JStr "Too many requests")].

Definition retryAfterSec (bucket : Bucket) (now : Z) : Z :=
  Z.max 1 (ceil_div (resetAt bucket - now) 1000).

Definition reset_window (opts : RateLimitOptions) (k : string) (now : Z)
           (buckets : gmap string Bucket) : Reply * gmap string Bucket :=
  (Next [], <[k := {| tokens := max opts - 1; resetAt := now + windowMs opts |}]> buckets).

Definition rateLimit (opts : RateLimitOptions) (c : Ctx) (now : Z)
           (buckets : gmap string Bucket) : Reply * gmap string Bucket :=
  let k := getKey opts c in
  match buckets !! k with
  | None => reset_window opts k now buckets
  | Some bucket =>
      if resetAt bucket <=? now then reset_window opts k now buckets
      else if tokens bucket <=? 0 then
        let hs := set_header "Retry-After" (String_of (retryAfterSec bucket now)) [] in
        let hs := set_header "X-RateLimit-Limit" (String_of (max opts)) hs in
        let hs := set_header "X-RateLimit-Remaining" "0" hs in
        let hs := set_header "X-RateLimit-Reset"
                             (String_of (floor_div (resetAt bucket) 1000)) hs in
        (Answer (json hs too_many 429), buckets)
      else
        let bucket' := {| tokens := tokens bucket - 1; resetAt := resetAt bucket |} in
        let hs := set_header "X-RateLimit-Limit" (String_of (max opts)) [] in
        let hs := set_header "X-RateLimit-Remaining" (String_of (tokens bucket')) hs in
        let hs := set_header "X-RateLimit-Reset"
                             (String_of (floor_div (resetAt bucket) 1000)) hs in
        (Next hs, <[k := bucket']> buckets)
  end.

(** The response the client receives: the downstream handler's response
    with the prepared headers, or the middleware's own answer. *)
Definition respond (r : Reply) (downstream : Response) : Response :=
  match r with
  | Next prepared =>
      {| status := status downstream;
         headers := fold_left (fun hs h => set_header (fst h) (snd h) hs)
                              (headers downstream) prepared;
         body := body downstream |}
  | Answer a => a
  end.

Definition allowed (r : Reply) : bool :=
  match r with Next _ => true | Answer _ => false end.

(** The verdict read off a reply: [None] when the request was let through,
    [Some s] when it was limited, [s] being the [Retry-After] seconds. *)
Definition limited (r : Reply) : option string :=
  match r with
  | Next _ => None
  | Answer a => get_header "Retry-After" (headers a)
  end.

(** A series of requests from one client on one route, at the given times. *)
Fixpoint serve (opts : RateLimitOptions) (c : Ctx) (times : list Z)
         (buckets : gmap string Bucket) : list Reply * gmap string Bucket :=
  match times with
  | [] => ([], buckets)
  | now :: rest =>
      let '(r, buckets') := rateLimit opts c now buckets in
      let '(rs, buckets'') := serve opts c rest buckets' in
      (r :: rs, buckets'')
  end.

(** The window of the request's key is absent or over at [now]. *)
Definition fresh_or_over (opts : RateLimitOptions) (c : Ctx) (now : Z)
           (buckets : gmap string Bucket) : Prop :=
  buckets !! getKey opts c = None \/
  exists b, buckets !! getKey opts c = Some b /\ resetAt b <= now.

End RateLimit.

(** ** [src/utils/crypto.ts] *)

Module Crypto.

(** The Web Crypto primitives the worker calls.  [digest] is
    [crypto.subtle.digest("SHA-256", new TextEncoder().encode(value))] as a
    byte list; [hashSync] is bcrypt-ts at the given cost (its salt is not
    modelled: nothing here compares two digests). *)
Class WebCrypto := {
  digest : string -> list byte;
  hashSync : string -> Z -> string
}.

Definition hex_digit (n : N) : string :=
  match n with
  | 0%N => "0" | 1%N => "1" | 2%N => "2" | 3%N => "3"
  | 4%N => "4" | 5%N => "5" | 6%N => "6" | 7%N => "7"
  | 8%N => "8" | 9%N => "9" | 10%N => "a" | 11%N => "b"
  | 12%N => "c" | 13%N => "d" | 14%N => "e" | _ => "f"
  end.

(** [b.toString(16).padStart(2, "0")] for a byte. *)
Definition byte_hex (b : byte) : string :=
  let n := Byte.to_N b in
  hex_digit (n / 16) +:+ hex_digit (n mod 16).

(** [Array.from(array).map(...).join("")] *)
Definition hex (bytes : list byte) : string :=
  fold_right (fun b acc => byte_hex b +:+ acc) "" bytes.

(** [generateToken(bytes)]; [getRandomValues] is the entropy the platform
    hands out, one byte per index. *)
Definition generateToken (getRandomValues : nat -> byte) (bytes : nat) : string :=
  hex (map getRandomValues (seq 0 bytes)).

Definition sha256Hex `{WebCrypto} (value : string) : string :=
  hex (digest value).

End Crypto.

(** ** [hono/jwt] and [utils/token.ts] *)

Module Jwt.

Record Header := { alg : string; typ : string }.

(** The [data] object of a session payload. *)
Record SessionData := {
  sd_id : Z;
  sd_email : string;
  sd_name : string;
  sd_role : string
}.

(** A payload object: every claim the code writes or reads, each possibly
    [undefined]. *)
Record Payload := {
  userId : option Z;
  email : option string;
  purpose : option string;
  data : option SessionData;
  exp : option Z;
  nbf : option Z;
  iat : option Z
}.

Definition no_claims : Payload :=
  {| userId := None; email := None; purpose := None; data := None;
     exp := None; nbf := None; iat := None |}.

(** The three decoded segments of a compact token. *)
Record Token := { header : Header; payload : Payload; signature : string }.

(** A token string as a request carries it. *)
Inductive Wire :=
| Empty
| Malformed (s : string)
| Compact (t : Token).

(** [hono/jwt] is a dependency of the repository.  Its keyed signature and
    the name it gives the error for an expired token are left open. *)
Class Library := {
  hs256 : string -> Header -> Payload -> string;
  expired_name : string
}.

Inductive JwtError :=
| JwtTokenInvalid
| JwtHeaderInvalid
| JwtTokenNotBefore
| JwtTokenExpired
| JwtTokenIssuedAt
| JwtTokenSignatureMismatched.

Definition error_name `{Library} (e : JwtError) : string :=
  match e with
  | JwtTokenInvalid => "JwtTokenInvalid"
  | JwtHeaderInvalid => "JwtHeaderInvalid"
  | JwtTokenNotBefore => "JwtTokenNotBefore"
  | JwtTokenExpired => expired_name
  | JwtTokenIssuedAt => "JwtTokenIssuedAt"
  | JwtTokenSignatureMismatched => "JwtTokenSignatureMismatched"
  end.

Definition HS256_header : Header := {| alg := "HS256"; typ := "JWT" |}.

(** [sign(payload, secret)]: the payload is signed as given, nothing is
    added to it. *)
Definition sign `{Library} (p : Payload) (secret : string) : Wire :=
  Compact {| header := HS256_header; payload := p;
             signature := hs256 secret HS256_header p |}.

(** A numeric claim counts when it is present and not zero. *)
Definition claim (c : option Z) (test : Z -> bool) : bool :=
  match c with
  | Some v => negb (v =? 0) && test v
  | None => false
  end.

(** [verify(token, secret)] at the clock [now] (milliseconds). *)
Definition verify `{Library} (w : Wire) (secret : string) (now : Z)
  : JwtError + Payload :=
  match w with
  | Empty | Malformed _ => inl JwtTokenInvalid
  | Compact t =>
      let p := payload t in
      let sec := now / 1000 in
      if negb (String.eqb (alg (header t)) "HS256") then inl JwtHeaderInvalid
      else if claim (nbf p) (fun v => sec <? v) then inl JwtTokenNotBefore
      else if claim (exp p) (fun v => v <=? sec) then inl JwtTokenExpired
      else if claim (iat p) (fun v => sec <? v) then inl JwtTokenIssuedAt
      else if String.eqb (signature t) (hs256 secret (header t) p) then inr p
      else inl JwtTokenSignatureMismatched
  end.

(** [JSON.parse(decodeBase64(token.split('.')[1]))] *)
Definition decode_payload (w : Wire) : option Payload :=
  match w with
  | Compact t => Some (payload t)
  | _ => None
  end.

End Jwt.

Module TokenUtil.
Import Jwt.

(** A JavaScript call either returns or throws an error with a name. *)
Inductive Outcome (A : Type) :=
| Return (a : A)
| Throw (name : string).
#[global] Arguments Return {A} a.
#[global] Arguments Throw {A} name.

(** The constant is declared and never read. *)
Definition EMAIL_VERIFICATION_EXPIRY : string := "24h".

Definition generateVerificationToken `{Library}
           (uid : Z) (mail : string) (secret : string) : Wire :=
  sign {| userId := Some uid; email := Some mail;
          purpose := Some "email-verification"; data := None;
          exp := None; nbf := None; iat := None |} secret.

Record Verified := { v_payload : Payload; expired : bool }.

Definition verifyToken `{Library} (token : Wire) (secret : string) (now : Z)
  : Outcome Verified :=
  match verify token secret now with
  | inr p => Return {| v_payload := p; expired := false |}
  | inl e =>
      if String.eqb (error_name e) "JWTExpired" then
        match decode_payload token with
        | Some decoded => Return {| v_payload := decoded; expired := true |}
        | None => Throw "Invalid token"
        end
      else Throw (error_name e)
  end.

End TokenUtil.

(** ** The database behind [~/db] *)

Module Db.

Record User := {
  u_id : Z;
  u_email : string;
  u_name : string;
  u_password : string;
  u_role : string;
  u_emailVerified : option Z;
  u_deletedAt : option Z
}.

(** A row of the [tokens] table (migration 0002). *)
Record TokenRow := {
  t_id : Z;
  t_userId : Z;
  t_type : string;
  t_tokenHash : string;
  t_expiresAt : Z;
  t_usedAt : option Z;
  t_createdAt : Z
}.

(** A row of [id_cards], with the columns the handlers select. *)
Record IdCard := {
  c_id : Z;
  c_userId : Z;
  c_displayName : string;
  c_imageUrl : option string;
  c_publicId : option string
}.

(** Tables keep their rows in insertion order; [tokens_seq] is the last
    id the AUTOINCREMENT column handed out. *)
Record Tables := {
  users : list User;
  tokens : list TokenRow;
  tokens_seq : Z;
  idCards : list IdCard
}.

Inductive Table := Users | Tokens | IdCards.
Inductive Access := Reading | Writing.

(** A message handed to the email service. *)
Record Mail := { m_to : string; m_url : string; m_name : option string }.

(** What a request can touch: the database, the outgoing mail, and which
    database calls currently fail (a D1 call that rejects throws). *)
Record World := {
  db : Tables;
  outbox : list Mail;
  failing : Table -> Access -> bool
}.

Definition with_db (w : World) (d : Tables) : World :=
  {| db := d; outbox := outbox w; failing := failing w |}.

Definition healthy (w : World) : Prop :=
  forall t a, failing w t a = false.

End Db.

(** ** Handlers as computations over the world *)

Module Handler.
Import Db.
Export TokenUtil.

(** An [async] body: it runs on a world, changes it, and returns or throws.
    Writes made before a throw stay made. *)
Definition M (A : Type) : Type := World -> Outcome A * World.

Definition ret {A} (a : A) : M A := fun w => (Return a, w).

Definition throw {A} (name : string) : M A := fun w => (Throw name, w).

Definition bind {A B} (m : M A) (f : A -> M B) : M B :=
  fun w =>
    match m w with
    | (Return a, w') => f a w'
    | (Throw e, w') => (Throw e, w')
    end.

(** [try { m } catch (e) { h(e) }] *)
Definition try_catch {A} (m : M A) (h : string -> M A) : M A :=
  fun w =>
    match m w with
    | (Return a, w') => (Return a, w')
    | (Throw e, w') => h e w'
    end.

Definition lift {A} (o : Outcome A) : M A := fun w => (o, w).

Declare Scope handler_scope.
Delimit Scope handler_scope with handler.
Notation "x <- m ;; k" := (bind m (fun x => k))
  (at level 100, m at next level, right associativity) : handler_scope.
Notation "m ;;; k" := (bind m (fun _ => k))
  (at level 100, right associativity) : handler_scope.

End Handler.

(** ** The Prisma calls the handlers make

    The client behind [~/db] is generated code outside the sources.  Each
    call is written out as the query it stands for: [findFirst] returns the
    first matching row in table order, [update] rejects when no row has the
    id, and any call rejects while the database fails for its table. *)

Module Prisma.
Import Db Handler.
Local Open Scope handler_scope.

Definition call (t : Table) (a : Access) : M unit :=
  fun w => if failing w t a then (Throw "PrismaClientKnownRequestError", w)
           else (Return tt, w).

Definition read {A} (t : Table) (q : Tables -> A) : M A :=
  call t Reading ;;; (fun w => (Return (q (db w)), w)).

Definition write (t : Table) (f : Tables -> Tables) : M unit :=
  call t Writing ;;; (fun w => (Return tt, with_db w (f (db w)))).

(** [users.findFirst({ where: { email } })] *)
Definition users_findFirst (mail : string) : M (option User) :=
  read Users (fun d => List.find (fun u => String.eqb (u_email u) mail) (users d)).

(** [users.findUnique({ where: { id } })] *)
Definition users_findUnique (id : Z) : M (option User) :=
  read Users (fun d => List.find (fun u => u_id u =? id) (users d)).

Definition set_password (hashed : string) (u : User) : User :=
  {| u_id := u_id u; u_email := u_email u; u_name := u_name u;
     u_password := hashed; u_role := u_role u;
     u_emailVerified := u_emailVerified u; u_deletedAt := u_deletedAt u |}.

Definition set_emailVerified (at_ : Z) (u : User) : User :=
  {| u_id := u_id u; u_email := u_email u; u_name := u_name u;
     u_password := u_password u; u_role := u_role u;
     u_emailVerified := Some at_; u_deletedAt := u_deletedAt u |}.

Definition set_users (us : list User) (d : Tables) : Tables :=
  {| users := us; tokens := tokens d; tokens_seq := tokens_seq d;
     idCards := idCards d |}.

(** [users.update({ where: { id }, data })]: rejects when no row has the
    id. *)
Definition users_update (id : Z) (change : User -> User) : M unit :=
  call Users Writing ;;;
  (fun w =>
     if List.existsb (fun u => u_id u =? id) (users (db w)) then
       (Return tt,
        with_db w (set_users
                     (map (fun u => if u_id u =? id then change u else u)
                          (users (db w))) (db w)))
     else (Throw "PrismaClientKnownRequestError", w)).

(** The [data] of [tokens.create]: the four columns the callers give. *)
Record TokenData := {
  d_userId : Z;
  d_type : string;
  d_tokenHash : string;
  d_expiresAt : Z
}.

(** [tokens.create({ data })]: the id comes from the sequence, [usedAt]
    has no default and is NULL, [createdAt] defaults to the current time. *)
Definition tokens_create (data : TokenData) (now : Z) : M unit :=
  write Tokens (fun d =>
    {| users := users d;
       tokens := tokens d ++
         [ {| t_id := tokens_seq d + 1;
              t_userId := d_userId data;
              t_type := d_type data;
              t_tokenHash := d_tokenHash data;
              t_expiresAt := d_expiresAt data;
              t_usedAt := None;
              t_createdAt := now |} ];
       tokens_seq := tokens_seq d + 1;
       idCards := idCards d |}).

Definition unused (r : TokenRow) : bool :=
  match t_usedAt r with None => true | Some _ => false end.

(** [tokens.findFirst({ where: { type, tokenHash, usedAt: null } })] *)
Definition tokens_findFirst (type tokenHash : string) : M (option TokenRow) :=
  read Tokens (fun d =>
    List.find (fun r => String.eqb (t_type r) type
                        && String.eqb (t_tokenHash r) tokenHash
                        && unused r) (tokens d)).

Definition set_usedAt (at_ : Z) (r : TokenRow) : TokenRow :=
  {| t_id := t_id r; t_userId := t_userId r; t_type := t_type r;
     t_tokenHash := t_tokenHash r; t_expiresAt := t_expiresAt r;
     t_usedAt := Some at_; t_createdAt := t_createdAt r |}.

(** [tokens.update({ where: { id }, data: { usedAt } })] *)
Definition tokens_update (id : Z) (at_ : Z) : M unit :=
  call Tokens Writing ;;;
  (fun w =>
     if List.existsb (fun r => t_id r =? id) (tokens (db w)) then
       (Return tt,
        with_db w
          {| users := users (db w);
             tokens := map (fun r => if t_id r =? id then set_usedAt at_ r else r)
                           (tokens (db w));
             tokens_seq := tokens_seq (db w);
             idCards := idCards (db w) |})
     else (Throw "PrismaClientKnownRequestError", w)).

(** [idCards.findFirst({ where: { id, userId } })]; a [cardId] that is not
    a number matches no row. *)
Definition idCards_findFirst (cardId : option Z) (userId : Z) : M (option IdCard) :=
  read IdCards (fun d =>
    match cardId with
    | Some id => List.find (fun c => (c_id c =? id) && (c_userId c =? userId)) (idCards d)
    | None => None
    end).

(** [idCards.findFirst({ where: { userId } })] *)
Definition idCards_of_user (userId : Z) : M (option IdCard) :=
  read IdCards (fun d => List.find (fun c => c_userId c =? userId) (idCards d)).

End Prisma.

(** ** The email service *)

Module Email.
Import Db Handler.

(** [sendEmail] catches every error of the provider and returns a result
    object, which the callers here do not read: handing over a message
    never throws. *)
Definition send (m : Mail) : M unit :=
  fun w => (Return tt, {| db := db w; outbox := outbox w ++ [m]; failing := failing w |}).

End Email.

(** ** [src/controllers/AuthController] *)

Module AuthController.
Import Js Http Crypto Jwt Db Handler Prisma.
Local Open Scope handler_scope.

(** The bindings of [c.env] the handlers read. *)
Record Env := {
  JWT_SECRET : string;
  ENVIRONMENT : option string;
  DEV_MODE : option string
}.

Definition ok_true : Json := JObj [("ok", JBool true)].

(** *** GET /auth/verify-email *)

Definition is_email_verification (p : Payload) : bool :=
  match purpose p with
  | Some s => String.eqb s "email-verification"
  | None => false
  end.

Definition same_email (stored : string) (claimed : option string) : bool :=
  match claimed with
  | Some s => String.eqb stored s
  | None => false
  end.

Definition verify_email `{Library} (env : Env) (token : Wire) (now : Z) : M Response :=
  match token with
  | Empty => ret (error (JStr "Verification token is required") 400)
  | _ =>
    try_catch
      (v <- lift (verifyToken token (JWT_SECRET env) now) ;;
       if negb (is_email_verification (v_payload v)) then
         ret (error (JStr "Invalid verification token") 400)
       else if expired v then
         ret (error (JStr "Verification link has expired. Please request a new one.") 400)
       else
         match userId (v_payload v) with
         | None => throw "PrismaClientValidationError"
         | Some uid =>
           user <- users_findUnique uid ;;
           match user with
           | None => ret (error (JStr "User not found") 404)
           | Some user =>
             if negb (same_email (u_email user) (email (v_payload v))) then
               ret (error (JStr "Invalid verification token") 400)
             else match u_emailVerified user with
               | Some _ => ret (redirect "/email-verified?status=already-verified")
               | None =>
                 users_update (u_id user) (set_emailVerified now) ;;;
                 ret (redirect "/email-verified?status=success")
               end
           end
         end)
      (fun _ => ret (error
         (JStr "Invalid or expired verification link. Please request a new one.") 400))
  end.

(** *** POST /auth/forgot-password *)

(** The request as the handler reads it: the JSON body ([None] when it does
    not parse), the URL the reset link is resolved against, and the random
    bytes this request draws. *)
Record ForgotRequest := {
  fr_body : option (option string);
  fr_origin : string;
  fr_random : nat -> byte
}.

Definition is_development (env : Env) : bool :=
  match ENVIRONMENT env with
  | Some s => String.eqb s "development"
  | None => false
  end
  || match DEV_MODE env with
     | Some s => String.eqb s "true"
     | None => false
     end.

Definition json_body {A} (b : option A) : M A :=
  match b with
  | Some a => ret a
  | None => throw "SyntaxError"
  end.

Definition forgot_password `{WebCrypto} (env : Env) (req : ForgotRequest) (now : Z)
  : M Response :=
  try_catch
    (body <- json_body (fr_body req) ;;
     let email := lower (nullish body "") in
     if String.eqb email "" then ret (success ok_true)
     else
       user <- users_findFirst email ;;
       match user with
       | None => ret (success ok_true)
       | Some user =>
         let rawToken := generateToken (fr_random req) 32 in
         let tokenHash := sha256Hex rawToken in
         let expiresAt := now + 1000 * 60 * 30 in
         tokens_create {| d_userId := u_id user; d_type := "reset";
                          d_tokenHash := tokenHash; d_expiresAt := expiresAt |} now ;;;
         if is_development env then
           ret (success (JObj [("ok", JBool true);
                               ("devToken", JStr rawToken);
                               ("message", JStr "In development mode, token is returned directly.")]))
         else
           try_catch
             (Email.send {| m_to := u_email user;
                            m_url := fr_origin req +:+ "/reset-password?token=" +:+ rawToken;
                            m_name := if String.eqb (u_name user) "" then None
                                      else Some (u_name user) |} ;;;
              ret (success (JObj [("ok", JBool true);
                                  ("message", JStr "If an account exists with this email, a password reset link has been sent.")])))
             (fun _ => ret (error
                (JStr "Failed to send password reset email. Please try again later.") 500))
       end)
    (fun _ => ret (success (JObj [("ok", JBool true);
                                  ("message", JStr "If an account with this email exists, a password reset link has been sent.")]))).

(** *** POST /auth/reset-password *)

Record ResetBody := {
  token : option string;
  newPassword : option string;
  confirmPassword : option string
}.

Definition reset_password `{WebCrypto} (body : option ResetBody) (now : Z) : M Response :=
  try_catch
    (body <- json_body body ;;
     if negb (truthy (token body)) || negb (truthy (newPassword body))
        || negb (truthy (confirmPassword body)) then
       ret (error (JStr "Invalid payload") 400)
     else if negb (String.eqb (nullish (newPassword body) "")
                              (nullish (confirmPassword body) "")) then
       ret (error (JStr "Passwords don't match") 400)
     else
       let tokenHash := sha256Hex (nullish (token body) "") in
       rec <- tokens_findFirst "reset" tokenHash ;;
       match rec with
       | None => ret (error (JStr "Token expired or invalid") 410)
       | Some rec =>
         if t_expiresAt rec <? now then
           ret (error (JStr "Token expired or invalid") 410)
         else
           let hashed := hashSync (nullish (newPassword body) "") 8 in
           users_update (t_userId rec) (set_password hashed) ;;;
           tokens_update (t_id rec) now ;;;
           ret (success ok_true)
       end)
    (fun _ => ret (error (JStr "Failed to reset password") 400)).

(** *** POST /auth/login: the session payload *)

Definition session_payload (user : User) (now : Z) : Payload :=
  {| userId := None; email := None; purpose := None;
     data := Some {| sd_id := u_id user; sd_email := u_email user;
                     sd_name := u_name user; sd_role := u_role user |};
     exp := Some (now / 1000 + 60 * 60);
     nbf := None; iat := None |}.

End AuthController.

(** ** [controllers/id-card-controller] *)

Module IdCardController.
Import Js Http Crypto Jwt Db Handler Prisma.
Local Open Scope handler_scope.

(** The outcome of [c.req.json()] followed by [schema.safeParse]. *)
Inductive Parsed (A : Type) :=
| BadJson
| BadSchema (issues : Json)
| Good (a : A).
#[global] Arguments BadJson {A}.
#[global] Arguments BadSchema {A} issues.
#[global] Arguments Good {A} a.

(** [payload?.data?.id], and [!userId]. *)
Definition session_user (jwtPayload : option Payload) : option Z :=
  match jwtPayload with
  | Some p =>
      match data p with
      | Some d => if sd_id d =? 0 then None else Some (sd_id d)
      | None => None
      end
  | None => None
  end.

(** The request of POST /id-card/generate: the verified session payload,
    the parsed body ([cardId] after [Number(v)], [None] for NaN) and the
    random bytes this request draws. *)
Record GenerateRequest := {
  gr_jwtPayload : option Payload;
  gr_body : Parsed (option Z);
  gr_random : nat -> byte
}.

Definition generate `{WebCrypto} (req : GenerateRequest) (now : Z) : M Response :=
  match session_user (gr_jwtPayload req) with
  | None => ret (error (JStr "Unauthorized") 401)
  | Some userId =>
    match gr_body req with
    | BadJson => ret (error (JStr "Invalid JSON body") 400)
    | BadSchema issues => ret (error issues 400)
    | Good cardId =>
      card <- idCards_findFirst cardId userId ;;
      match card with
      | None => ret (error (JStr "Card not found") 404)
      | Some card =>
        if truthy (c_imageUrl card) && truthy (c_publicId card) then
          ret (success (JObj [("url", JStr (nullish (c_imageUrl card) ""));
                              ("publicId", JStr (nullish (c_publicId card) ""))]))
        else
          let raw := generateToken (gr_random req) 24 in
          let tokenHash := sha256Hex raw in
          let expiresAt := now + 1000 * 60 * 10 in
          tokens_create {| d_userId := userId; d_type := "idcard";
                           d_tokenHash := tokenHash; d_expiresAt := expiresAt |} now ;;;
          ret (success (JObj [("token", JStr raw);
                              ("expiresAt", toISOString expiresAt)]))
      end
    end
  end.

Definition owner_json (o : option User) : Json :=
  match o with
  | Some u => JObj [("id", JNum (u_id u)); ("name", JStr (u_name u))]
  | None => JNull
  end.

Definition card_id_string (c : option IdCard) : string :=
  match c with
  | Some c => String_of (c_id c)
  | None => ""
  end.

(** GET /id-card/verify/:token *)
Definition verify `{WebCrypto} (token : string) (now : Z) : M Response :=
  if String.eqb token "" then ret (error (JStr "Missing token") 400)
  else
    let tokenHash := sha256Hex token in
    rec <- tokens_findFirst "idcard" tokenHash ;;
    match rec with
    | None => ret (error (JStr "Token expired or invalid") 410)
    | Some rec =>
      if t_expiresAt rec <? now then
        ret (error (JStr "Token expired or invalid") 410)
      else
        card <- idCards_of_user (t_userId rec) ;;
        owner <- users_findUnique (t_userId rec) ;;
        ret (success (JObj [("valid", JBool true);
                            ("cardId", JStr (card_id_string card));
                            ("owner", owner_json owner)]))
    end.

End IdCardController.

(** ** What issuing and redeeming mean on the tables *)

Module Lifecycle.
Import Js Http Crypto Jwt Db Handler Prisma.

(** The tables after one token record was stored for [owner]. *)
Definition persisted (d : Tables) (owner : Z) (type hash : string)
           (expiresAt now : Z) : Tables :=
  {| users := users d;
     tokens := tokens d ++
       [ {| t_id := tokens_seq d + 1; t_userId := owner; t_type := type;
            t_tokenHash := hash; t_expiresAt := expiresAt;
            t_usedAt := None; t_createdAt := now |} ];
     tokens_seq := tokens_seq d + 1;
     idCards := idCards d |}.

(** The tables after the password of [uid] was replaced. *)
Definition password_set (uid : Z) (hashed : string) (d : Tables) : Tables :=
  set_users (map (fun u => if u_id u =? uid then set_password hashed u else u)
                 (users d)) d.

(** The tables after token [id] was marked used at [now]. *)
Definition marked (id now : Z) (d : Tables) : Tables :=
  {| users := users d;
     tokens := map (fun r => if t_id r =? id then set_usedAt now r else r) (tokens d);
     tokens_seq := tokens_seq d;
     idCards := idCards d |}.

(** The unused record that a lookup by raw token and type finds. *)
Definition lookup `{WebCrypto} (type raw : string) (d : Tables) : option TokenRow :=
  List.find (fun r => String.eqb (t_type r) type
                      && String.eqb (t_tokenHash r) (sha256Hex raw)
                      && unused r) (tokens d).

(** The validity rule of the data model: unused and not yet expired. *)
Definition valid_at (now : Z) (r : TokenRow) : Prop :=
  t_usedAt r = None /\ now < t_expiresAt r.

(** The check both redeeming handlers apply to the record they found. *)
Definition accepted_at (now : Z) (r : TokenRow) : bool :=
  unused r && negb (t_expiresAt r <? now).

(** The message of a rejected verification link: the purpose test answers
    when [verifyToken] returns, the handler's [catch] when it throws. *)
Definition rejection (o : Outcome Verified) : string :=
  match o with
  | Return _ => "Invalid verification token"
  | Throw _ => "Invalid or expired verification link. Please request a new one."
  end.

(** None of the time claims of a payload fails at [now]. *)
Definition in_time (p : Payload) (now : Z) : bool :=
  negb (claim (nbf p) (fun v => now / 1000 <? v))
  && negb (claim (exp p) (fun v => v <=? now / 1000))
  && negb (claim (iat p) (fun v => now / 1000 <? v)).

Definition status_of (o : Outcome Response) : option Z :=
  match o with
  | Return r => Some (status r)
  | Throw _ => None
  end.

End Lifecycle.

(** ** Stand-ins and sample data for concrete runs *)

Module Sample.
Import Js Http Crypto Jwt Db Handler Prisma.

(** A digest that returns the bytes of its input, and a password hash that
    tags its input: enough to run the handlers on concrete requests. *)
Definition plain_crypto : WebCrypto :=
  {| digest := fun s => map byte_of_ascii (String.list_ascii_of_string s);
     hashSync := fun p cost => "$2a$" +:+ String_of cost +:+ "$" +:+ p |}.

(** A signature that binds the secret to the claims it covers. *)
Definition plain_jwt : Library :=
  {| hs256 := fun secret h p =>
       secret +:+ "/" +:+ alg h
              +:+ "/" +:+ nullish (purpose p) ""
              +:+ "/" +:+ nullish (email p) "";
     expired_name := "JwtTokenExpired" |}.

Definition five_per_minute : RateLimit.RateLimitOptions :=
  {| RateLimit.windowMs := 60000; RateLimit.max := 5; RateLimit.key := None |}.

Definition a_client : RateLimit.Ctx :=
  {| RateLimit.cf_connecting_ip := Some "203.0.113.7";
     RateLimit.path := "/api/auth/forgot-password" |}.

Definition ada : User :=
  {| u_id := 1; u_email := "ada@example.com"; u_name := "Ada";
     u_password := "$2a$8$old"; u_role := "USER";
     u_emailVerified := None; u_deletedAt := None |}.

Definition blank_card : IdCard :=
  {| c_id := 7; c_userId := 1; c_displayName := "Ada";
     c_imageUrl := None; c_publicId := None |}.

Definition hosted_card : IdCard :=
  {| c_id := 8; c_userId := 1; c_displayName := "Ada";
     c_imageUrl := Some "https://cdn.example.com/ada.png";
     c_publicId := Some "cards/ada" |}.

Definition no_faults : Table -> Access -> bool := fun _ _ => false.

(** Writes to the [tokens] table fail, everything else works. *)
Definition tokens_read_only : Table -> Access -> bool :=
  fun t a => match t, a with Tokens, Writing => true | _, _ => false end.

Definition world_of (d : Tables) (f : Table -> Access -> bool) : World :=
  {| db := d; outbox := []; failing := f |}.

Definition seeded : Tables :=
  {| users := [ada]; tokens := []; tokens_seq := 0;
     idCards := [blank_card; hosted_card] |}.

(** One unused reset record for the raw token "feed" and one unused id-card
    record for "cafe", both expiring at 1000. *)
Definition reset_row : TokenRow :=
  {| t_id := 1; t_userId := 1; t_type := "reset";
     t_tokenHash := @sha256Hex plain_crypto "feed";
     t_expiresAt := 1000; t_usedAt := None; t_createdAt := 0 |}.

Definition idcard_row : TokenRow :=
  {| t_id := 2; t_userId := 1; t_type := "idcard";
     t_tokenHash := @sha256Hex plain_crypto "cafe";
     t_expiresAt := 1000; t_usedAt := None; t_createdAt := 0 |}.

Definition pending : Tables :=
  {| users := [ada]; tokens := [reset_row; idcard_row]; tokens_seq := 2;
     idCards := [blank_card] |}.

Definition new_password : AuthController.ResetBody :=
  {| AuthController.token := Some "feed";
     AuthController.newPassword := Some "N3w-pass!";
     AuthController.confirmPassword := Some "N3w-pass!" |}.

(** Two databases that differ only in whether Ada has an account. *)
Definition registered : Tables :=
  {| users := [ada]; tokens := []; tokens_seq := 0; idCards := [] |}.

Definition unregistered : Tables :=
  {| users := []; tokens := []; tokens_seq := 0; idCards := [] |}.

(** Writes to the [users] table fail, everything else works. *)
Definition users_read_only : Table -> Access -> bool :=
  fun t a => match t, a with Users, Writing => true | _, _ => false end.

Definition ask_reset_for_ada : AuthController.ForgotRequest :=
  {| AuthController.fr_body := Some (Some "ada@example.com");
     AuthController.fr_origin := "https://api.example.com";
     AuthController.fr_random := fun _ => x00 |}.

Definition ask_token_for_blank_card : IdCardController.GenerateRequest :=
  {| IdCardController.gr_jwtPayload :=
       Some (AuthController.session_payload ada 0);
     IdCardController.gr_body := IdCardController.Good (Some 7);
     IdCardController.gr_random := fun _ => x2a |}.

Definition zeros : nat -> byte := fun _ => x00.

Definition counting : nat -> byte :=
  fun i => match Byte.of_nat i with Some b => b | None => xff end.

Definition production : AuthController.Env :=
  {| AuthController.JWT_SECRET := "s3cret";
     AuthController.ENVIRONMENT := Some "production";
     AuthController.DEV_MODE := None |}.

Definition ada_session : Payload :=
  AuthController.session_payload ada 0.

(** The session token of login, signed with the stand-in signature. *)
Definition ada_session_token : Token :=
  {| header := HS256_header; payload := ada_session;
     signature := @hs256 plain_jwt "s3cret" HS256_header ada_session |}.

End Sample.

(** ** Further platform functions *)

Module Runtime.
Import Js Jwt Db.

(** [compareSync] of bcrypt-ts. *)
Class Bcrypt := { compareSync : string -> string -> bool }.

(** What the handlers need to put values on the wire: the compact
    serialization of a signed token, [exclude(user, ["password"])] of
    [~/db/utils], [String.prototype.trim], and the [attributes] column of an
    id card, which [Db.IdCard] leaves out. *)
Class Wire_format := {
  compact : Wire -> string;
  exclude_password : User -> Json;
  trim : string -> string;
  attributes : IdCard -> Json
}.

End Runtime.

(** ** [src/middleware/require-admin.ts] *)

Module RequireAdmin.
Import Js Http Jwt RateLimit.

Definition forbidden : Json :=
  JObj [("success", JBool false); ("error", JStr "Forbidden")].

(** [payload?.data?.role] *)
Definition role_of (jwtPayload : option Payload) : option string :=
  match jwtPayload with
  | Some p => sd_role <$> data p
  | None => None
  end.

Definition requireAdmin (jwtPayload : option Payload) : Reply :=
  match role_of jwtPayload with
  | Some r => if String.eqb r "ADMIN" then Next [] else Answer (json [] forbidden 403)
  | None => Answer (json [] forbidden 403)
  end.

End RequireAdmin.

(** ** More Prisma calls *)

Module PrismaMore.
Import Js Db Handler Prisma.
Local Open Scope handler_scope.

(** [users.update({ where: { id }, data, select })], returning the row. *)
Definition users_update_returning (id : Z) (change : User -> User) : M User :=
  call Users Writing ;;;
  (fun w =>
     match List.find (fun u => u_id u =? id) (users (db w)) with
     | Some u =>
         (Return (change u),
          with_db w (set_users
                       (map (fun u => if u_id u =? id then change u else u)
                            (users (db w))) (db w)))
     | None => (Throw "PrismaClientKnownRequestError", w)
     end).

(** [tokens.deleteMany({ where })], returning [count]. *)
Definition tokens_deleteMany (where_ : TokenRow -> bool) : M Z :=
  call Tokens Writing ;;;
  (fun w =>
     (Return (Z.of_nat (length (List.filter where_ (tokens (db w))))),
      with_db w {| users := users (db w);
                   tokens := List.filter (fun r => negb (where_ r)) (tokens (db w));
                   tokens_seq := tokens_seq (db w);
                   idCards := idCards (db w) |})).

Definition owned_by (gone : list User) (owner : Z) : bool :=
  List.existsb (fun u => u_id u =? owner) gone.

(** [users.deleteMany({ where })], returning [count].  Both [tokens] and
    [id_cards] reference [users] with ON DELETE CASCADE: the rows of a
    deleted user go with it. *)
Definition users_deleteMany (where_ : User -> bool) : M Z :=
  call Users Writing ;;;
  (fun w =>
     let gone := List.filter where_ (users (db w)) in
     (Return (Z.of_nat (length gone)),
      with_db w {| users := List.filter (fun u => negb (where_ u)) (users (db w));
                   tokens := List.filter (fun r => negb (owned_by gone (t_userId r)))
                                         (tokens (db w));
                   tokens_seq := tokens_seq (db w);
                   idCards := List.filter (fun c => negb (owned_by gone (c_userId c)))
                                          (idCards (db w)) |})).

(** [idCards.findUnique({ where: { id } })] *)
Definition idCards_findUnique (id : Z) : M (option IdCard) :=
  read IdCards (fun d => List.find (fun c => c_id c =? id) (idCards d)).

(** [idCards.findMany({ where: { userId }, skip, take })] *)
Definition idCards_findMany (userId : Z) (skip take : Z) : M (list IdCard) :=
  read IdCards (fun d =>
    firstn (Z.to_nat take)
           (skipn (Z.to_nat skip)
                  (List.filter (fun c => c_userId c =? userId) (idCards d)))).

(** [idCards.count({ where: { userId } })] *)
Definition idCards_count (userId : Z) : M Z :=
  read IdCards (fun d =>
    Z.of_nat (length (List.filter (fun c => c_userId c =? userId) (idCards d)))).

End PrismaMore.

(** ** [controllers/AuthController], the remaining handlers *)

Module AuthMore.
Import Js Http Crypto Jwt Db Handler Prisma PrismaMore Runtime AuthController.
Import IdCardController.
Local Open Scope handler_scope.

(** *** POST /auth/login, after the schema validation *)

Record LoginData := { l_email : string; l_password : string }.

Definition login `{Library} `{Bcrypt} `{Wire_format}
           (env : Env) (data : LoginData) (now : Z) : M Response :=
  user <- users_findFirst (l_email data) ;;
  match user with
  | None =>
      ret (error (JStr "User not found. Please check your credentials or sign up for a new account.") 401)
  | Some user =>
      if negb (compareSync (l_password data) (u_password user)) then
        ret (error (JStr "Invalid email or password. Please check your credentials and try again.") 401)
      else
        let token := sign (session_payload user now) (JWT_SECRET env) in
        ret (success (JObj [("token", JStr (compact token));
                            ("user", exclude_password user)]))
  end.

(** *** POST /auth/verify-email *)

(** The request: the payload the JWT middleware stored, if any, the JSON
    body ([None] when it does not parse; inside, the [email] key) and the
    URL the link is resolved against. *)
Record VerifyRequest := {
  vr_jwtPayload : option Payload;
  vr_body : option (option string);
  vr_origin : string
}.

Definition token_email (p : option Payload) : option string :=
  match p with
  | Some p => email p
  | None => None
  end.

Definition generic_verification_sent : Json :=
  JObj [("success", JBool true);
        ("message", JStr "If an account exists with this email, a verification link has been sent.")].

Definition already_verified : Json :=
  JObj [("success", JBool true); ("message", JStr "Email is already verified.")].

(** The handler from [if (!email)] on, once [email] is determined. *)
Definition verification_for `{Library} `{Wire_format}
           (env : Env) (origin email : string) : M Response :=
  if String.eqb email "" then ret (error (JStr "Email is required") 400)
  else
    user <- users_findFirst email ;;
    match user with
    | None => ret (success generic_verification_sent)
    | Some user =>
      match u_emailVerified user with
      | Some _ => ret (success already_verified)
      | None =>
        try_catch
          (let token := generateVerificationToken (u_id user) (u_email user)
                                                  (JWT_SECRET env) in
           Email.send {| m_to := u_email user;
                         m_url := origin +:+ "/auth/verify-email?token="
                                         +:+ compact token;
                         m_name := if String.eqb (u_name user) "" then None
                                   else Some (u_name user) |} ;;;
           ret (success (JObj
             ([("success", JBool true);
               ("message", JStr "Verification email sent. Please check your inbox.")]
              ++ match ENVIRONMENT env with
                 | Some e => if String.eqb e "development"
                             then [("devToken", JStr (compact token))] else []
                 | None => []
                 end))))
          (fun _ => ret (error
             (JStr "Failed to send verification email. Please try again later.") 500))
      end
    end.

Definition request_verification `{Library} `{Wire_format}
           (env : Env) (req : VerifyRequest) : M Response :=
  try_catch
    (if truthy (token_email (vr_jwtPayload req)) then
       verification_for env (vr_origin req) (nullish (token_email (vr_jwtPayload req)) "")
     else
       match vr_body req with
       | None => ret (error (JStr "Invalid request body") 400)
       | Some body => verification_for env (vr_origin req) (trim (lower (nullish body "")))
       end)
    (fun _ => ret (error (JStr "An error occurred while processing your request.") 500)).

(** *** POST /auth/delete-account *)

Definition set_deleted (at_ : Z) (u : User) : User :=
  {| u_id := u_id u; u_email := u_email u; u_name := "";
     u_password := u_password u; u_role := u_role u;
     u_emailVerified := u_emailVerified u; u_deletedAt := Some at_ |}.

(** [(body as any)?.confirm === true] *)
Definition confirmed (body : Json) : bool :=
  match field "confirm" body with
  | Some (JBool true) => true
  | _ => false
  end.

Definition delete_account (jwtPayload : option Payload) (body : option Json) (now : Z)
  : M Response :=
  match session_user jwtPayload with
  | None => ret (error (JStr "Unauthorized") 401)
  | Some userId =>
    match body with
    | None => ret (error (JStr "Invalid JSON body") 400)
    | Some body =>
      if negb (confirmed body) then ret (error (JStr "Confirmation required") 400)
      else
        users_update userId (set_deleted now) ;;;
        ret (success (JObj [("scheduledAt", toISOString now)]))
    end
  end.

End AuthMore.

(** ** [src/controllers/ProfileController] *)

Module ProfileController.
Import Js Http Crypto Jwt Db Handler Prisma PrismaMore Runtime AuthController.
Import IdCardController.
Local Open Scope handler_scope.

(** [select: { id: true, email: true, name: true }] *)
Definition profile_json (u : User) : Json :=
  JObj [("id", JNum (u_id u)); ("email", JStr (u_email u)); ("name", JStr (u_name u))].

(** GET /user/profile *)
Definition get_profile (jwtPayload : option Payload) : M Response :=
  match session_user jwtPayload with
  | None => ret (error (JStr "Unauthorized") 401)
  | Some userId =>
    user <- users_findUnique userId ;;
    match user with
    | None => ret (error (JStr "User not found") 404)
    | Some user => ret (success (profile_json user))
    end
  end.

Definition set_name (name : option string) (u : User) : User :=
  match name with
  | Some n =>
      {| u_id := u_id u; u_email := u_email u; u_name := n;
         u_password := u_password u; u_role := u_role u;
         u_emailVerified := u_emailVerified u; u_deletedAt := u_deletedAt u |}
  | None => u
  end.

(** PUT /user/profile; the parsed body is the optional [name]. *)
Definition update_profile (jwtPayload : option Payload)
           (body : Parsed (option string)) : M Response :=
  match body with
  | BadJson => ret (error (JStr "Invalid JSON body") 400)
  | BadSchema issues => ret (error issues 400)
  | Good name =>
    match session_user jwtPayload with
    | None => ret (error (JStr "Unauthorized") 401)
    | Some userId =>
      updated <- users_update_returning userId (set_name name) ;;
      ret (success (profile_json updated))
    end
  end.

Record PasswordChange := { currentPassword : string; newPassword : string }.

(** PUT /user/password; the schema has already matched [confirmPassword]
    against [newPassword]. *)
Definition change_password `{WebCrypto} `{Bcrypt} (jwtPayload : option Payload)
           (body : Parsed PasswordChange) : M Response :=
  match body with
  | BadJson => ret (error (JStr "Invalid JSON body") 400)
  | BadSchema issues => ret (error issues 400)
  | Good data =>
    match session_user jwtPayload with
    | None => ret (error (JStr "Unauthorized") 401)
    | Some userId =>
      user <- users_findUnique userId ;;
      match user with
      | None => ret (error (JStr "User not found") 404)
      | Some user =>
        if negb (compareSync (currentPassword data) (u_password user)) then
          ret (error (JStr "Current password is incorrect") 400)
        else
          let hashed := hashSync (newPassword data) 8 in
          users_update userId (set_password hashed) ;;;
          ret (success ok_true)
      end
    end
  end.

End ProfileController.

(** ** The maintenance controller: POST /cron/cleanup *)

Module MaintenanceController.
Import Js Http Db Handler Prisma PrismaMore.
Local Open Scope handler_scope.

Record Env := { CRON_SECRET : option string; DEV_MODE : option string }.

(** [!provided || provided !== c.env.CRON_SECRET] *)
Definition unauthorized (env : Env) (provided : option string) : bool :=
  negb (truthy provided)
  || match provided, CRON_SECRET env with
     | Some p, Some s => negb (String.eqb p s)
     | _, _ => true
     end.

Definition thirty_days : Z := 1000 * 60 * 60 * 24 * 30.

Definition expired_before (now : Z) (r : TokenRow) : bool := t_expiresAt r <? now.

Definition used (r : TokenRow) : bool := negb (unused r).

Definition deleted_before (cutoff : Z) (u : User) : bool :=
  match u_deletedAt u with
  | Some d => d <? cutoff
  | None => false
  end.

Definition cleanup (env : Env) (provided : option string) (now : Z) : M Response :=
  try_catch
    (if unauthorized env provided then ret (error (JStr "Unauthorized") 401)
     else
       let cutoff := now - thirty_days in
       expired <- tokens_deleteMany (expired_before now) ;;
       used <- tokens_deleteMany used ;;
       usersDeleted <- users_deleteMany (deleted_before cutoff) ;;
       ret (success (JObj [("tokensDeleted", JNum (expired + used));
                           ("usersDeleted", JNum usersDeleted)])))
    (fun err =>
       match DEV_MODE env with
       | Some "true" =>
           ret (error (JObj [("message", JStr "cleanup failed"); ("error", JStr err)]) 500)
       | _ => ret (error (JStr "Internal Server Error") 500)
       end).

End MaintenanceController.

(** ** [controllers/id-card-controller], image and list *)

Module IdCardMore.
Import Js Http Crypto Jwt Db Handler Prisma PrismaMore Runtime IdCardController.
Local Open Scope handler_scope.

(** GET /id-card/:id/image; [id] is [Number(param)] when it is finite. *)
Definition image (id : option Z) : M Response :=
  match id with
  | None => ret (error (JStr "Invalid id") 400)
  | Some id =>
    card <- idCards_findUnique id ;;
    match card with
    | None => ret (error (JStr "Not found") 404)
    | Some card =>
      if truthy (c_imageUrl card) then
        ret (success (JObj [("url", JStr (nullish (c_imageUrl card) ""))]))
      else ret (error (JStr "No image available") 404)
    end
  end.

(** [Math.max(1, Math.min(100, pageSize))] and
    [(Math.max(1, page) - 1) * take], for integer parameters. *)
Definition take_of (pageSize : Z) : Z := Z.max 1 (Z.min 100 pageSize).
Definition skip_of (page pageSize : Z) : Z := (Z.max 1 page - 1) * take_of pageSize.

Definition item_json `{Wire_format} (c : IdCard) : Json :=
  JObj [("id", JNum (c_id c)); ("displayName", JStr (c_displayName c));
        ("attributes", attributes c)].

(** The [items] array, as the object a JavaScript array is: its elements
    under the keys "0", "1", ... *)
Definition JArr_items `{Wire_format} (cs : list IdCard) : list (string * Json) :=
  imap (fun i c => (String_of (Z.of_nat i), item_json c)) cs.

(** GET /id-card/list; [page] and [pageSize] are the query parameters when
    given ([Number] of an integer), else 1 and 10.  [Promise.all] awaits
    [findMany] and [count]; a failing one rejects the whole. *)
Definition list_cards `{Wire_format} (jwtPayload : option Payload)
           (page pageSize : option Z) : M Response :=
  match session_user jwtPayload with
  | None => ret (error (JStr "Unauthorized") 401)
  | Some userId =>
    let page := default 1 page in
    let pageSize := default 10 pageSize in
    let take := take_of pageSize in
    let skip := skip_of page pageSize in
    items <- idCards_findMany userId skip take ;;
    total <- idCards_count userId ;;
    ret (success (JObj [("items", JObj (JArr_items items));
                        ("total", JNum total);
                        ("page", JNum page);
                        ("pageSize", JNum take)]))
  end.

(** The rows of one page, as [list_cards] selects them. *)
Definition page_rows (d : Tables) (userId page pageSize : Z) : list IdCard :=
  firstn (Z.to_nat (take_of pageSize))
         (skipn (Z.to_nat (skip_of page pageSize))
                (List.filter (fun c => c_userId c =? userId) (idCards d))).

End IdCardMore.

(** ** Notions used to state further properties *)

Module Notions.
Import Js Http Crypto Jwt Db Handler Prisma RateLimit.

(** The characters [toString(16)] produces. *)
Definition is_hex_char (a : ascii) : bool :=
  let n := nat_of_ascii a in
  ((48 <=? n)%nat && (n <=? 57)%nat) || ((97 <=? n)%nat && (n <=? 102)%nat).

Definition hex_value (a : ascii) : N :=
  let n := N_of_ascii a in
  if (n <? 58)%N then (n - 48)%N else (n - 87)%N.

(** Reading a hex string back into bytes, two characters at a time. *)
Fixpoint unhex (s : string) : option (list byte) :=
  match s with
  | EmptyString => Some []
  | String a (String b rest) =>
      match Byte.of_N (16 * hex_value a + hex_value b), unhex rest with
      | Some x, Some l => Some (x :: l)
      | _, _ => None
      end
  | String _ EmptyString => None
  end.

(** A string of ASCII characters only; on these [Js.lower] is
    [toLowerCase]. *)
Definition ascii_only (s : string) : bool :=
  forallb (fun a => (nat_of_ascii a <? 128)%nat) (String.list_ascii_of_string s).

(** How many requests of a series were let through. *)
Definition count_allowed (rs : list Reply) : nat :=
  length (List.filter allowed rs).

(** The tables after user [uid] was marked verified at [now]. *)
Definition verified (uid now : Z) (d : Tables) : Tables :=
  set_users (map (fun u => if u_id u =? uid then set_emailVerified now u else u)
                 (users d)) d.

(** The tables after user [uid] was scheduled for deletion at [now]. *)
Definition scheduled (uid now : Z) (d : Tables) : Tables :=
  set_users (map (fun u => if u_id u =? uid then AuthMore.set_deleted now u else u)
                 (users d)) d.

Definition has_user (uid : Z) (d : Tables) : bool :=
  List.existsb (fun u => u_id u =? uid) (users d).

End Notions.

(** ** More sample data *)

Module Fixtures.
Import Js Http Crypto Jwt Db Handler Prisma Runtime Sample.

(** A comparison that accepts exactly the stand-in hash of cost 8. *)
Definition plain_bcrypt : Bcrypt :=
  {| compareSync := fun p h => String.eqb h ("$2a$8$" +:+ p) |}.

Definition plain_format : Wire_format :=
  {| compact := fun w => match w with
                         | Compact t => "jwt." +:+ signature t
                         | Malformed s => s
                         | Empty => ""
                         end;
     exclude_password := fun u =>
       JObj [("id", JNum (u_id u)); ("email", JStr (u_email u));
             ("name", JStr (u_name u)); ("role", JStr (u_role u))];
     trim := fun s => s;
     attributes := fun _ => JObj [] |}.

Definition anonymous (p : string) : RateLimit.Ctx :=
  {| RateLimit.cf_connecting_ip := None; RateLimit.path := p |}.

Definition grace : User :=
  {| u_id := 2; u_email := "grace@example.com"; u_name := "Grace";
     u_password := "$2a$8$hopper"; u_role := "ADMIN";
     u_emailVerified := Some 5; u_deletedAt := None |}.

Definition two_users : Tables :=
  {| users := [ada; grace]; tokens := [reset_row; idcard_row]; tokens_seq := 2;
     idCards := [blank_card; hosted_card] |}.

Definition maintenance : MaintenanceController.Env :=
  {| MaintenanceController.CRON_SECRET := Some "cron";
     MaintenanceController.DEV_MODE := None |}.

End Fixtures.

(** * Properties *)

Module RateLimitFacts.
Import Js Http RateLimit.

Lemma ceil_div_spec (a b q : Z) :
  0 < b -> ceil_div a b = q <-> b * (q - 1) < a <= b * q.
Proof.
  intros Hb. unfold ceil_div. split.
  - intros <-. pose proof (Z.div_mod (- a) b ltac:(lia)).
    pose proof (Z.mod_pos_bound (- a) b Hb). nia.
  - intros [Hlo Hhi].
    assert ((- a) / b = - q) as ->; [|lia].
    symmetry. apply Z.div_unique with (r := b * q - a); lia.
Qed.

Lemma ceil_div_pos (a b : Z) : 0 < b -> 0 < a -> 1 <= ceil_div a b.
Proof.
  intros Hb Ha. destruct (ceil_div_spec a b (ceil_div a b) Hb) as [H _].
  specialize (H eq_refl). nia.
Qed.

End RateLimitFacts.

Module RateLimitWindow.
Import Js Http RateLimit RateLimitFacts Sample.

Section Window.
Variables (opts : RateLimitOptions) (c : Ctx).
Let k := getKey opts c.

Lemma rateLimit_reset now buckets :
  fresh_or_over opts c now buckets ->
  rateLimit opts c now buckets =
  (Next [], <[k := {| tokens := max opts - 1; resetAt := now + windowMs opts |}]> buckets).
Proof.
  unfold rateLimit, reset_window, k. intros [-> | (b & -> & Hb)]; [done|].
  destruct (Z.leb_spec (resetAt b) now); [done | lia].
Qed.

Lemma rateLimit_decrement now buckets b :
  buckets !! k = Some b -> now < resetAt b -> 0 < tokens b ->
  allowed (rateLimit opts c now buckets).1 = true /\
  (rateLimit opts c now buckets).2 =
    <[k := {| tokens := tokens b - 1; resetAt := resetAt b |}]> buckets.
Proof.
  unfold rateLimit, k. intros -> Hnow Htok.
  destruct (Z.leb_spec (resetAt b) now); [lia|].
  destruct (Z.leb_spec (tokens b) 0); [lia|]. done.
Qed.

Lemma rateLimit_deny now buckets b :
  buckets !! k = Some b -> now < resetAt b -> tokens b <= 0 ->
  allowed (rateLimit opts c now buckets).1 = false /\
  limited (rateLimit opts c now buckets).1 =
    Some (String_of (ceil_div (resetAt b - now) 1000)) /\
  1 <= ceil_div (resetAt b - now) 1000 /\
  (rateLimit opts c now buckets).2 = buckets.
Proof.
  unfold rateLimit, k. intros -> Hnow Htok.
  destruct (Z.leb_spec (resetAt b) now); [lia|].
  destruct (Z.leb_spec (tokens b) 0); [|lia].
  assert (1 <= ceil_div (resetAt b - now) 1000) as Hceil
    by (apply ceil_div_pos; lia).
  repeat split; try done.
  cbn. unfold retryAfterSec. rewrite Z.max_r by lia. done.
Qed.

Lemma serve_app ts1 ts2 buckets :
  serve opts c (ts1 ++ ts2) buckets =
  let '(rs1, b1) := serve opts c ts1 buckets in
  let '(rs2, b2) := serve opts c ts2 b1 in
  (rs1 ++ rs2, b2).
Proof.
  revert buckets. induction ts1 as [|t ts1 IH]; intros buckets; cbn.
  - by destruct (serve opts c ts2 buckets).
  - destruct (rateLimit opts c t buckets) as [r b'].
    rewrite IH. destruct (serve opts c ts1 b') as [rs1 b1].
    by destruct (serve opts c ts2 b1).
Qed.

(** Inside one window, as many requests pass as the bucket has tokens. *)
Lemma serve_within_window ts : forall buckets b,
  buckets !! k = Some b ->
  Forall (fun t => t < resetAt b) ts ->
  Z.of_nat (length ts) <= tokens b ->
  Forall (fun r => allowed r = true) (serve opts c ts buckets).1 /\
  length (serve opts c ts buckets).1 = length ts /\
  (serve opts c ts buckets).2 !! k =
    Some {| tokens := tokens b - Z.of_nat (length ts); resetAt := resetAt b |}.
Proof.
  induction ts as [|t ts IH]; intros buckets b Hb Hts Hlen.
  - cbn. repeat split; [constructor|]. rewrite Hb. destruct b; cbn. f_equal. f_equal. lia.
  - inversion Hts as [|? ? Ht Hts']; subst. cbn [length] in Hlen.
    destruct (rateLimit_decrement t buckets b Hb Ht ltac:(lia)) as [Hal Hbk].
    cbn [serve]. destruct (rateLimit opts c t buckets) as [r b1]. cbn in Hal, Hbk. subst b1.
    specialize (IH (<[k:={| tokens := tokens b - 1; resetAt := resetAt b |}]> buckets)
                   {| tokens := tokens b - 1; resetAt := resetAt b |}).
    rewrite lookup_insert_eq in IH. specialize (IH eq_refl Hts' ltac:(cbn; lia)).
    destruct (serve opts c ts _) as [rs b2]. cbn in *.
    destruct IH as (Hall & Hl & Hk). repeat split; [by constructor | by rewrite Hl |].
    rewrite Hk. f_equal. f_equal. lia.
Qed.

(** C8: the middleware follows the fixed-window rule.  On the first request
    of a key, or once [now >= resetAt], the bucket becomes
    [{max - 1, now + windowMs}] and the request passes.  Otherwise a bucket
    with tokens left is decremented and the request passes; a bucket at
    zero denies, leaves the bucket alone and reports
    [Retry-After = ceil((resetAt - now) / 1000)], which is at least 1.
    Hence, for [max >= 1], of [max + 1] requests inside one window the
    first [max] pass and the last is denied. *)
Theorem rateLimit_fixed_window (now : Z) (buckets : gmap string Bucket) :
  (fresh_or_over opts c now buckets ->
   rateLimit opts c now buckets =
   (Next [], <[getKey opts c :=
                 {| tokens := max opts - 1; resetAt := now + windowMs opts |}]> buckets)) /\
  (forall b, buckets !! getKey opts c = Some b -> now < resetAt b -> 0 < tokens b ->
     allowed (rateLimit opts c now buckets).1 = true /\
     (rateLimit opts c now buckets).2 =
       <[getKey opts c := {| tokens := tokens b - 1; resetAt := resetAt b |}]> buckets) /\
  (forall b, buckets !! getKey opts c = Some b -> now < resetAt b -> tokens b = 0 ->
     allowed (rateLimit opts c now buckets).1 = false /\
     limited (rateLimit opts c now buckets).1 =
       Some (String_of (ceil_div (resetAt b - now) 1000)) /\
     1 <= ceil_div (resetAt b - now) 1000 /\
     (rateLimit opts c now buckets).2 = buckets) /\
  (forall ts last,
     1 <= max opts ->
     fresh_or_over opts c now buckets ->
     length ts = Z.to_nat (max opts - 1) ->
     Forall (fun t => t < now + windowMs opts) (ts ++ [last]) ->
     exists oks r,
       (serve opts c (now :: ts ++ [last]) buckets).1 = oks ++ [r] /\
       length oks = Z.to_nat (max opts) /\
       Forall (fun r => allowed r = true) oks /\
       allowed r = false /\
       limited r = Some (String_of (ceil_div (now + windowMs opts - last) 1000)) /\
       1 <= ceil_div (now + windowMs opts - last) 1000).
Proof.
  split; [apply rateLimit_reset|].
  split; [intros b; apply rateLimit_decrement|].
  split; [intros b Hb Hnow Hz; apply rateLimit_deny; [done|done|lia]|].
  intros ts last Hmax Hfresh Hlen Hin.
  apply Forall_app in Hin as [Hts Hlast]. inversion Hlast as [|? ? Hl _]; subst.
  cbn [serve]. rewrite (rateLimit_reset now buckets Hfresh).
  set (b0 := {| tokens := max opts - 1; resetAt := now + windowMs opts |}).
  set (bk1 := <[k:=b0]> buckets).
  rewrite serve_app.
  destruct (serve_within_window ts bk1 b0) as (Hall & Hlen' & Hk).
  { unfold bk1. apply lookup_insert_eq. }
  { done. }
  { cbn. lia. }
  destruct (serve opts c ts bk1) as [rs bk2]. cbn in Hall, Hlen', Hk.
  cbn [serve].
  destruct (rateLimit_deny last bk2 _ Hk) as (Hden & Hlim & Hge & _);
    [cbn; lia | cbn; lia |].
  destruct (rateLimit opts c last bk2) as [r bk3]. cbn in Hden, Hlim, Hge |- *.
  exists (Next [] :: rs), r. repeat split; try done.
  - cbn. rewrite Hlen', Hlen. lia.
  - by constructor.
Qed.

End Window.

(** With [max = 5] and a one-minute window, the sixth request of the window
    is limited. *)
Lemma rateLimit_fixed_window_witness :
  1 <= max five_per_minute /\
  fresh_or_over five_per_minute a_client 0 ∅ /\
  exists oks r,
    (serve five_per_minute a_client [0; 10; 20; 30; 40; 59001] ∅).1 = oks ++ [r] /\
    length oks = 5%nat /\
    Forall (fun r => allowed r = true) oks /\
    allowed r = false /\
    limited r = Some "1" /\
    1 <= ceil_div (0 + 60000 - 59001) 1000.
Proof.
  assert (Hf : fresh_or_over five_per_minute a_client 0 ∅) by (left; done).
  split; [cbn; lia|]. split; [exact Hf|].
  destruct (rateLimit_fixed_window five_per_minute a_client 0 ∅) as (_ & _ & _ & H).
  apply (H [10; 20; 30; 40] 59001); [cbn; lia | exact Hf | done |].
  repeat constructor; cbn; lia.
Defined.

End RateLimitWindow.

Module RateLimitHeaders.
Import Js Http RateLimit RateLimitFacts Sample.

(** A request that is let through after a decrement carries the three
    metadata headers. *)
Lemma rateLimit_decrement_headers opts c now (buckets : gmap string Bucket) b hs :
  buckets !! getKey opts c = Some b -> now < resetAt b -> 0 < tokens b ->
  (rateLimit opts c now buckets).1 = Next hs ->
  get_header "X-RateLimit-Limit" hs = Some (String_of (max opts)) /\
  get_header "X-RateLimit-Remaining" hs = Some (String_of (tokens b - 1)) /\
  get_header "X-RateLimit-Reset" hs = Some (String_of (floor_div (resetAt b) 1000)).
Proof.
  unfold rateLimit. intros -> Hnow Htok.
  destruct (Z.leb_spec (resetAt b) now); [lia|].
  destruct (Z.leb_spec (tokens b) 0); [lia|].
  cbn. intros [= <-]. done.
Qed.

(** A denied request carries the three metadata headers and [Retry-After]. *)
Lemma rateLimit_deny_headers opts c now (buckets : gmap string Bucket) b :
  buckets !! getKey opts c = Some b -> now < resetAt b -> tokens b <= 0 ->
  exists r, (rateLimit opts c now buckets).1 = Answer r /\
    status r = 429 /\
    get_header "X-RateLimit-Limit" (headers r) = Some (String_of (max opts)) /\
    get_header "X-RateLimit-Remaining" (headers r) = Some "0" /\
    get_header "X-RateLimit-Reset" (headers r)
      = Some (String_of (floor_div (resetAt b) 1000)) /\
    get_header "Retry-After" (headers r) = Some (String_of (retryAfterSec b now)).
Proof.
  unfold rateLimit. intros -> Hnow Htok.
  destruct (Z.leb_spec (resetAt b) now); [lia|].
  destruct (Z.leb_spec (tokens b) 0); [|lia].
  eexists. split; [reflexivity|]. cbn. done.
Qed.

(** The request that opens a window is forwarded with no header prepared. *)
Lemma rateLimit_reset_headers opts c now (buckets : gmap string Bucket) :
  fresh_or_over opts c now buckets ->
  (rateLimit opts c now buckets).1 = Next [].
Proof.
  intros H. by rewrite (RateLimitWindow.rateLimit_reset opts c now buckets H).
Qed.

(** C9: the first request of a client on a limited route is answered
    without any of the rate-limit headers: the branch that opens a window
    calls [next()] before setting them. *)
Theorem window_opening_response_has_no_rate_headers :
  let reply := (rateLimit five_per_minute a_client 0 ∅).1 in
  let r := respond reply (success AuthController.ok_true) in
  allowed reply = true /\
  status r = 200 /\
  get_header "X-RateLimit-Limit" (headers r) = None /\
  get_header "X-RateLimit-Remaining" (headers r) = None /\
  get_header "X-RateLimit-Reset" (headers r) = None.
Proof. cbn. done. Qed.

End RateLimitHeaders.

Module SignedCredential.
Import Js Http Jwt TokenUtil Db Handler Prisma AuthController Lifecycle Sample.

Section WithLibrary.
Context `{Library}.

Lemma verify_sign_unexpiring (p : Payload) (secret : string) (now : Z) :
  exp p = None -> nbf p = None -> iat p = None ->
  verify (sign p secret) secret now = inr p.
Proof.
  intros He Hn Hi. unfold verify, sign. cbn. rewrite He, Hn, Hi. cbn.
  by rewrite String.eqb_refl.
Qed.

(** C2: a verification token carries no expiry claim, so [verifyToken]
    reports [expired = false] at every later time, also more than 24 hours
    after it was issued. *)
Theorem verification_token_never_expires (uid : Z) (mail secret : string) (now : Z) :
  verifyToken (generateVerificationToken uid mail secret) secret now =
  Return {| v_payload := {| userId := Some uid; email := Some mail;
                            purpose := Some "email-verification"; data := None;
                            exp := None; nbf := None; iat := None |};
            expired := false |}.
Proof.
  unfold verifyToken, generateVerificationToken.
  by rewrite verify_sign_unexpiring.
Qed.

(** The session payload of login does expire: one hour after issue. *)
Lemma session_token_one_hour (user : User) (secret : string) (issued now : Z) :
  0 <= issued ->
  verify (sign (session_payload user issued) secret) secret now =
  if issued / 1000 + 3600 <=? now / 1000 then inl JwtTokenExpired
  else inr (session_payload user issued).
Proof.
  intros Hpos. unfold verify, sign. cbn.
  assert (0 <= issued / 1000) by (apply Z.div_pos; lia).
  destruct (Z.eqb_spec (issued / 1000 + 60 * 60) 0); [lia|]. cbn.
  change (60 * 60) with 3600.
  destruct (issued / 1000 + 3600 <=? now / 1000); [done|].
  by rewrite String.eqb_refl.
Qed.

End WithLibrary.
End SignedCredential.

Module Purpose.
Import Js Http Jwt TokenUtil Db Handler Prisma AuthController Lifecycle Sample.

Section WithLibrary.
Context `{Library}.

Lemma verifyToken_payload t secret now v :
  verifyToken (Compact t) secret now = Return v -> v_payload v = payload t.
Proof.
  unfold verifyToken, verify. cbn.
  repeat (match goal with |- context [if ?b then _ else _] => destruct b end;
          cbn; try congruence);
    intros [= <-]; done.
Qed.

(** C6: a token whose signature verifies and whose purpose claim is not
    ['email-verification'] is rejected with status 400 and nothing is
    written.  While the token is in time, [verifyToken] returns its payload
    and the message is "Invalid verification token".  Tokens made by
    [generateVerificationToken] carry the purpose from signing on. *)
Theorem verify_email_rejects_other_purpose (env : Env) (t : Token) (now : Z) (w : World) :
  String.eqb (signature t) (hs256 (JWT_SECRET env) (header t) (payload t)) = true ->
  is_email_verification (payload t) = false ->
  verify_email env (Compact t) now w =
    (Return (error (JStr (rejection (verifyToken (Compact t) (JWT_SECRET env) now))) 400), w)
  /\ (alg (header t) = "HS256" -> in_time (payload t) now = true ->
      verifyToken (Compact t) (JWT_SECRET env) now
      = Return {| v_payload := payload t; expired := false |})
  /\ (forall uid mail secret,
        is_email_verification <$> decode_payload (generateVerificationToken uid mail secret)
        = Some true).
Proof.
  intros Hsig Hpurpose. split; [|split].
  - unfold verify_email, try_catch, bind, lift, ret.
    destruct (verifyToken (Compact t) (JWT_SECRET env) now) as [v|e] eqn:Hv; [|done].
    rewrite (verifyToken_payload _ _ _ _ Hv), Hpurpose. done.
  - intros Halg Htime. unfold in_time in Htime.
    apply andb_true_iff in Htime as [Htime Hiat].
    apply andb_true_iff in Htime as [Hnbf Hexp].
    apply negb_true_iff in Hiat, Hnbf, Hexp.
    unfold verifyToken, verify. rewrite Halg, Hnbf, Hexp, Hiat, Hsig. done.
  - done.
Qed.

End WithLibrary.

(** A session token presented to the verification endpoint. *)
Lemma verify_email_rejects_other_purpose_witness :
  String.eqb (signature ada_session_token)
             (@hs256 plain_jwt "s3cret" (header ada_session_token)
                     (payload ada_session_token)) = true /\
  is_email_verification (payload ada_session_token) = false /\
  @verify_email plain_jwt production (Compact ada_session_token) 1000
                (world_of seeded no_faults)
  = (Return (error (JStr "Invalid verification token") 400), world_of seeded no_faults).
Proof.
  split; [vm_compute; reflexivity|]. split; [vm_compute; reflexivity|].
  refine (proj1 (@verify_email_rejects_other_purpose plain_jwt production
                   ada_session_token 1000 (world_of seeded no_faults) _ _));
    vm_compute; reflexivity.
Defined.

End Purpose.

(** ** Running handlers step by step *)

Module Steps.
Import Js Http Crypto Jwt Db Handler Prisma.

Lemma bind_return {A B} (m : M A) (f : A -> M B) (w w' : World) (a : A) :
  m w = (Return a, w') -> bind m f w = f a w'.
Proof. unfold bind. by intros ->. Qed.

Lemma bind_throw {A B} (m : M A) (f : A -> M B) (w w' : World) (e : string) :
  m w = (Throw e, w') -> bind m f w = (Throw e, w').
Proof. unfold bind. by intros ->. Qed.

Lemma try_return {A} (m : M A) (h : string -> M A) (w w' : World) (a : A) :
  m w = (Return a, w') -> try_catch m h w = (Return a, w').
Proof. unfold try_catch. by intros ->. Qed.

Lemma try_throw {A} (m : M A) (h : string -> M A) (w w' : World) (e : string) :
  m w = (Throw e, w') -> try_catch m h w = h e w'.
Proof. unfold try_catch. by intros ->. Qed.

Lemma healthy_with_db (w : World) (d : Tables) : healthy w -> healthy (with_db w d).
Proof. intros Hw t a. apply Hw. Qed.

Lemma call_healthy (w : World) (t : Table) (a : Access) :
  healthy w -> call t a w = (Return tt, w).
Proof. intros Hw. unfold call. by rewrite Hw. Qed.

Lemma call_failing (w : World) (t : Table) (a : Access) :
  failing w t a = true -> call t a w = (Throw "PrismaClientKnownRequestError", w).
Proof. intros Hw. unfold call. by rewrite Hw. Qed.

Lemma read_healthy {A} (w : World) (t : Table) (q : Tables -> A) :
  healthy w -> read t q w = (Return (q (db w)), w).
Proof. intros Hw. unfold read. by rewrite (bind_return _ _ w w tt (call_healthy w t _ Hw)). Qed.

Lemma write_healthy (w : World) (t : Table) (f : Tables -> Tables) :
  healthy w -> write t f w = (Return tt, with_db w (f (db w))).
Proof. intros Hw. unfold write. by rewrite (bind_return _ _ w w tt (call_healthy w t _ Hw)). Qed.

Lemma users_update_healthy (w : World) (id : Z) (change : User -> User) :
  healthy w ->
  List.existsb (fun u => u_id u =? id) (users (db w)) = true ->
  users_update id change w =
  (Return tt,
   with_db w (set_users (map (fun u => if u_id u =? id then change u else u)
                             (users (db w))) (db w))).
Proof.
  intros Hw Hex. unfold users_update.
  rewrite (bind_return _ _ w w tt (call_healthy w _ _ Hw)). by rewrite Hex.
Qed.

Lemma tokens_update_healthy (w : World) (id at_ : Z) :
  healthy w ->
  List.existsb (fun r => t_id r =? id) (tokens (db w)) = true ->
  tokens_update id at_ w = (Return tt, with_db w (Lifecycle.marked id at_ (db w))).
Proof.
  intros Hw Hex. unfold tokens_update.
  rewrite (bind_return _ _ w w tt (call_healthy w _ _ Hw)). by rewrite Hex.
Qed.

Lemma tokens_create_healthy (w : World) (data : TokenData) (now : Z) :
  healthy w ->
  tokens_create data now w =
  (Return tt, with_db w (Lifecycle.persisted (db w) (d_userId data) (d_type data)
                                   (d_tokenHash data) (d_expiresAt data) now)).
Proof. intros Hw. unfold tokens_create. by rewrite write_healthy. Qed.

Lemma tokens_findFirst_healthy `{WebCrypto} (w : World) (type raw : string) :
  healthy w ->
  tokens_findFirst type (sha256Hex raw) w = (Return (Lifecycle.lookup type raw (db w)), w).
Proof. intros Hw. unfold tokens_findFirst. by rewrite read_healthy. Qed.

Lemma read_keeps_world {A} (t : Table) (q : Tables -> A) (w : World) :
  (read t q w).2 = w.
Proof. unfold read, bind, call. by destruct (failing w t Reading). Qed.

Lemma read_cases {A} (t : Table) (q : Tables -> A) (w : World) :
  read t q w = (Return (q (db w)), w) \/
  read t q w = (Throw "PrismaClientKnownRequestError", w).
Proof. unfold read, bind, call. destruct (failing w t Reading); auto. Qed.

Lemma users_update_cases (id : Z) (change : User -> User) (w : World) :
  users_update id change w =
    (Return tt,
     with_db w (set_users (map (fun u => if u_id u =? id then change u else u)
                               (users (db w))) (db w)))
  \/ users_update id change w = (Throw "PrismaClientKnownRequestError", w).
Proof.
  unfold users_update, bind, call. destruct (failing w Users Writing); [auto|].
  destruct (List.existsb _ _); auto.
Qed.

Lemma tokens_update_cases (id at_ : Z) (w : World) :
  tokens_update id at_ w = (Return tt, with_db w (Lifecycle.marked id at_ (db w)))
  \/ tokens_update id at_ w = (Throw "PrismaClientKnownRequestError", w).
Proof.
  unfold tokens_update, bind, call. destruct (failing w Tokens Writing); [auto|].
  destruct (List.existsb _ _); auto.
Qed.

Lemma write_cases (t : Table) (f : Tables -> Tables) (w : World) :
  write t f w = (Return tt, with_db w (f (db w)))
  \/ write t f w = (Throw "PrismaClientKnownRequestError", w).
Proof. unfold write, bind, call. destruct (failing w t Writing); auto. Qed.

(** Reduce the application of a handler body to the current world. *)
Ltac enter := cbv beta iota zeta.

(** Run the next awaited call, its result established by [t]. *)
Tactic Notation "await" tactic(t) :=
  enter; erewrite bind_return by t; enter.

End Steps.

Module Issuing.
Import Js Http Crypto Jwt Db Handler Prisma AuthController IdCardController.
Import Lifecycle Sample Steps.

Section WithCrypto.
Context `{WebCrypto}.

(** POST /id-card/generate for a card that exists and belongs to the
    session's user. *)
Lemma generate_found (req : GenerateRequest) (now : Z) (w : World)
      (uid id : Z) (card : IdCard) :
  healthy w ->
  session_user (gr_jwtPayload req) = Some uid ->
  gr_body req = Good (Some id) ->
  List.find (fun c => (c_id c =? id) && (c_userId c =? uid)) (idCards (db w)) = Some card ->
  generate req now w =
  if truthy (c_imageUrl card) && truthy (c_publicId card) then
    (Return (success (JObj [("url", JStr (nullish (c_imageUrl card) ""));
                            ("publicId", JStr (nullish (c_publicId card) ""))])), w)
  else
    let raw := generateToken (gr_random req) 24 in
    (Return (success (JObj [("token", JStr raw);
                            ("expiresAt", toISOString (now + 600000))])),
     with_db w (persisted (db w) uid "idcard" (sha256Hex raw) (now + 600000) now)).
Proof.
  intros Hw Hu Hb Hc. unfold generate. rewrite Hu, Hb.
  await (apply read_healthy, Hw). rewrite Hc. enter.
  destruct (truthy (c_imageUrl card) && truthy (c_publicId card)); [done|].
  await (apply tokens_create_healthy, Hw). done.
Qed.

(** POST /auth/forgot-password for a registered address. *)
Lemma forgot_password_found (env : Env) (req : ForgotRequest) (now : Z) (w : World)
      (body : option string) (user : User) :
  healthy w ->
  fr_body req = Some body ->
  lower (nullish body "") <> "" ->
  List.find (fun u => String.eqb (u_email u) (lower (nullish body ""))) (users (db w))
    = Some user ->
  let raw := generateToken (fr_random req) 32 in
  let stored := persisted (db w) (u_id user) "reset" (sha256Hex raw) (now + 1800000) now in
  forgot_password env req now w =
  if is_development env then
    (Return (success (JObj [("ok", JBool true); ("devToken", JStr raw);
                            ("message", JStr "In development mode, token is returned directly.")])),
     with_db w stored)
  else
    (Return (success (JObj [("ok", JBool true);
                            ("message", JStr "If an account exists with this email, a password reset link has been sent.")])),
     {| db := stored;
        outbox := outbox w ++
          [ {| m_to := u_email user;
               m_url := fr_origin req +:+ "/reset-password?token=" +:+ raw;
               m_name := if String.eqb (u_name user) "" then None else Some (u_name user) |} ];
        failing := failing w |}).
Proof.
  intros Hw Hb He Hu raw stored. apply String.eqb_neq in He.
  unfold forgot_password. rewrite Hb.
  destruct (is_development env) eqn:Hdev.
  - apply try_return. await reflexivity. rewrite He.
    await (apply read_healthy, Hw). rewrite Hu.
    await (apply tokens_create_healthy, Hw). done.
  - apply try_return. await reflexivity. rewrite He.
    await (apply read_healthy, Hw). rewrite Hu.
    await (apply tokens_create_healthy, Hw).
    apply try_return. await reflexivity. done.
Qed.

(** The tables after a reset request depend on the random bytes only
    through the hash of the raw token. *)
Lemma tables_depend_on_hash_only (env : Env) (req req' : ForgotRequest) (now : Z)
      (w : World) (body : option string) (user : User) :
  healthy w ->
  fr_body req = Some body -> fr_body req' = Some body ->
  lower (nullish body "") <> "" ->
  List.find (fun u => String.eqb (u_email u) (lower (nullish body ""))) (users (db w))
    = Some user ->
  sha256Hex (generateToken (fr_random req) 32)
    = sha256Hex (generateToken (fr_random req') 32) ->
  db (forgot_password env req now w).2 = db (forgot_password env req' now w).2.
Proof.
  intros Hw Hb Hb' He Hu Hhash.
  rewrite (forgot_password_found env req now w body user Hw Hb He Hu).
  rewrite (forgot_password_found env req' now w body user Hw Hb' He Hu).
  cbv zeta. rewrite Hhash. by destruct (is_development env).
Qed.



(** C10: for a card of the session's user, [generate] answers with the
    stored URL and writes nothing when the card has both [imageUrl] and
    [publicId]; otherwise it stores one [idcard] record expiring ten minutes
    from now and answers with the raw token and that expiry. *)
Theorem generate_mints_only_without_image (req : GenerateRequest) (now : Z) (w : World)
      (uid id : Z) (card : IdCard) :
  healthy w ->
  session_user (gr_jwtPayload req) = Some uid ->
  gr_body req = Good (Some id) ->
  List.find (fun c => (c_id c =? id) && (c_userId c =? uid)) (idCards (db w)) = Some card ->
  (truthy (c_imageUrl card) && truthy (c_publicId card) = true ->
   generate req now w =
   (Return (success (JObj [("url", JStr (nullish (c_imageUrl card) ""));
                           ("publicId", JStr (nullish (c_publicId card) ""))])), w))
  /\
  (truthy (c_imageUrl card) && truthy (c_publicId card) = false ->
   let raw := generateToken (gr_random req) 24 in
   generate req now w =
   (Return (success (JObj [("token", JStr raw);
                           ("expiresAt", toISOString (now + 1000 * 60 * 10))])),
    with_db w (persisted (db w) uid "idcard" (sha256Hex raw) (now + 1000 * 60 * 10) now))).
Proof.
  intros Hw Hu Hb Hc.
  rewrite (generate_found req now w uid id card Hw Hu Hb Hc).
  split; intros ->; done.
Qed.

End WithCrypto.

Lemma healthy_no_faults (d : Tables) : healthy (world_of d no_faults).
Proof. intros t a. reflexivity. Qed.


(** The same user asks for the card that has a CDN image, then for the one
    that has none. *)
Lemma generate_mints_only_without_image_witness :
  healthy (world_of seeded no_faults) /\
  @generate plain_crypto
     {| gr_jwtPayload := Some ada_session; gr_body := Good (Some 8);
        gr_random := counting |} 5 (world_of seeded no_faults)
  = (Return (success (JObj [("url", JStr "https://cdn.example.com/ada.png");
                            ("publicId", JStr "cards/ada")])),
     world_of seeded no_faults)
  /\
  tokens (db (@generate plain_crypto
     {| gr_jwtPayload := Some ada_session; gr_body := Good (Some 7);
        gr_random := counting |} 5 (world_of seeded no_faults)).2)
  = [ {| t_id := 1; t_userId := 1; t_type := "idcard";
         t_tokenHash := @sha256Hex plain_crypto (generateToken counting 24);
         t_expiresAt := 600005; t_usedAt := None; t_createdAt := 5 |} ].
Proof.
  split; [apply healthy_no_faults|]. split.
  - apply (proj1 (@generate_mints_only_without_image plain_crypto
                {| gr_jwtPayload := Some ada_session; gr_body := Good (Some 8);
                   gr_random := counting |} 5 (world_of seeded no_faults) 1 8 hosted_card
                (healthy_no_faults seeded) eq_refl eq_refl eq_refl)).
    reflexivity.
  - rewrite (proj2 (@generate_mints_only_without_image plain_crypto
                {| gr_jwtPayload := Some ada_session; gr_body := Good (Some 7);
                   gr_random := counting |} 5 (world_of seeded no_faults) 1 7 blank_card
                (healthy_no_faults seeded) eq_refl eq_refl eq_refl) eq_refl).
    reflexivity.
Defined.

End Issuing.

Module Redeeming.
Import Js Http Crypto Jwt Db Handler Prisma AuthController IdCardController.
Import Lifecycle Sample Steps.

Lemma accepted_at_spec (now : Z) (r : TokenRow) :
  accepted_at now r = true <-> t_usedAt r = None /\ now <= t_expiresAt r.
Proof.
  unfold accepted_at, unused. destruct (t_usedAt r); cbn.
  - split; [discriminate | intros [? _]; discriminate].
  - rewrite negb_true_iff, Z.ltb_ge. split; [done | by intros [_ ?]].
Qed.

(** Every valid record passes the handlers' check. *)
Lemma valid_accepted (now : Z) (r : TokenRow) :
  valid_at now r -> accepted_at now r = true.
Proof. intros [Hu Hn]. apply accepted_at_spec. split; [done | lia]. Qed.

Lemma lookup_unused `{WebCrypto} (type raw : string) (d : Tables) (r : TokenRow) :
  lookup type raw d = Some r ->
  t_type r = type /\ t_tokenHash r = sha256Hex raw /\ t_usedAt r = None /\ In r (tokens d).
Proof.
  unfold lookup. intros Hf. apply find_some in Hf as [Hin Hp].
  apply andb_true_iff in Hp as [Hp Hu]. apply andb_true_iff in Hp as [Ht Hh].
  apply String.eqb_eq in Ht, Hh. unfold unused in Hu.
  destruct (t_usedAt r); [discriminate | done].
Qed.

Section WithCrypto.
Context `{WebCrypto}.

(** GET /id-card/verify/:token on a working database: 410 unless an unused
    record of the token is found whose expiry is not before [now]. *)
Lemma verify_status (raw : string) (now : Z) (w : World) :
  healthy w -> raw <> "" ->
  status_of (verify raw now w).1 =
  Some (match lookup "idcard" raw (db w) with
        | Some r => if accepted_at now r then 200 else 410
        | None => 410
        end).
Proof.
  intros Hw Hraw. apply String.eqb_neq in Hraw. unfold verify. rewrite Hraw.
  await (apply tokens_findFirst_healthy, Hw).
  destruct (lookup "idcard" raw (db w)) as [r|] eqn:Hl; [|done].
  apply lookup_unused in Hl as (_ & _ & Hu & _).
  unfold accepted_at, unused. rewrite Hu. cbn.
  destruct (t_expiresAt r <? now); [done|]. cbn.
  await (apply read_healthy, Hw). await (apply read_healthy, Hw). done.
Qed.

(** The id-card verification reads and never writes. *)
Lemma verify_keeps_world (raw : string) (now : Z) (w : World) :
  (verify raw now w).2 = w.
Proof.
  unfold verify. destruct (String.eqb raw ""); [done|].
  unfold tokens_findFirst, idCards_of_user, users_findUnique.
  destruct (read_cases Tokens
    (fun d => List.find (fun r => String.eqb (t_type r) "idcard"
                            && String.eqb (t_tokenHash r) (sha256Hex raw)
                            && unused r) (tokens d)) w) as [E|E].
  2: { enter. by rewrite (bind_throw _ _ _ _ _ E). }
  enter. rewrite (bind_return _ _ _ _ _ E). enter.
  match goal with |- context [List.find ?p ?l] => destruct (List.find p l) as [r|] end;
    [|done].
  destruct (t_expiresAt r <? now); [done|]. enter.
  match goal with |- context [bind (read IdCards ?q)] =>
    destruct (read_cases IdCards q w) as [E1|E1] end.
  2: { by rewrite (bind_throw _ _ _ _ _ E1). }
  rewrite (bind_return _ _ _ _ _ E1). enter.
  match goal with |- context [bind (read Users ?q)] =>
    destruct (read_cases Users q w) as [E2|E2] end.
  2: { by rewrite (bind_throw _ _ _ _ _ E2). }
  by rewrite (bind_return _ _ _ _ _ E2).
Qed.

(** A well-formed reset request with the raw token and the new password. *)
Lemma reset_password_found (raw pw : string) (now : Z) (w : World) (rec : TokenRow) :
  healthy w -> raw <> "" -> pw <> "" ->
  lookup "reset" raw (db w) = Some rec ->
  List.existsb (fun u => u_id u =? t_userId rec) (users (db w)) = true ->
  reset_password (Some {| token := Some raw; newPassword := Some pw;
                          confirmPassword := Some pw |}) now w =
  if accepted_at now rec then
    (Return (success ok_true),
     with_db w (marked (t_id rec) now
                  (password_set (t_userId rec) (hashSync pw 8) (db w))))
  else (Return (error (JStr "Token expired or invalid") 410), w).
Proof.
  intros Hw Hraw Hpw Hl Hu. apply String.eqb_neq in Hraw, Hpw.
  unfold reset_password, try_catch. await reflexivity.
  cbn [token newPassword confirmPassword truthy nullish].
  rewrite Hraw, Hpw, String.eqb_refl. cbn [negb orb].
  await (apply tokens_findFirst_healthy, Hw). rewrite Hl.
  destruct (lookup_unused _ _ _ _ Hl) as (_ & _ & Hused & Hin).
  unfold accepted_at, unused. rewrite Hused. cbn [andb].
  destruct (t_expiresAt rec <? now); cbn [negb]; [done|].
  await (apply users_update_healthy; [exact Hw | exact Hu]).
  erewrite bind_return.
  2: { apply tokens_update_healthy; [by apply healthy_with_db|].
       cbn. apply existsb_exists. exists rec. split; [done | apply Z.eqb_refl]. }
  done.
Qed.

Lemma verify_repeatable (raw : string) (now : Z) (w : World) :
  verify raw now (verify raw now w).2 = verify raw now w.
Proof. by rewrite verify_keeps_world. Qed.

Lemma reset_password_not_found (raw pw : string) (now : Z) (w : World) :
  healthy w -> raw <> "" -> pw <> "" ->
  lookup "reset" raw (db w) = None ->
  reset_password (Some {| token := Some raw; newPassword := Some pw;
                          confirmPassword := Some pw |}) now w =
  (Return (error (JStr "Token expired or invalid") 410), w).
Proof.
  intros Hw Hraw Hpw Hl. apply String.eqb_neq in Hraw, Hpw.
  unfold reset_password, try_catch. await reflexivity.
  cbn [token newPassword confirmPassword truthy nullish].
  rewrite Hraw, Hpw, String.eqb_refl. cbn [negb orb].
  await (apply tokens_findFirst_healthy, Hw). by rewrite Hl.
Qed.

Lemma find_map_none {A} (p : A -> bool) (f : A -> A) (l : list A) :
  (forall x, In x l -> p (f x) = false) -> List.find p (map f l) = None.
Proof.
  induction l as [|x l IH]; intros Hall; [done|]. cbn.
  rewrite (Hall x (or_introl eq_refl)). apply IH. intros y Hy. apply Hall. by right.
Qed.

Lemma find_app_none {A} (p : A -> bool) (l1 l2 : list A) :
  (forall x, In x l1 -> p x = false) -> List.find p (l1 ++ l2) = List.find p l2.
Proof.
  induction l1 as [|x l1 IH]; intros Hall; [done|]. cbn.
  rewrite (Hall x (or_introl eq_refl)). apply IH. intros y Hy. apply Hall. by right.
Qed.

(** Once the record found for a raw token is marked, a lookup of the same
    token finds nothing, provided no other unused reset record has its hash. *)
Lemma marked_lookup_none (raw hashed : string) (uid now : Z) (d : Tables) (rec : TokenRow) :
  (forall r, In r (tokens d) -> t_tokenHash r = sha256Hex raw ->
             t_type r = "reset" -> t_usedAt r = None -> t_id r = t_id rec) ->
  lookup "reset" raw (marked (t_id rec) now (password_set uid hashed d)) = None.
Proof.
  intros Huniq. unfold lookup, marked. cbn. apply find_map_none. intros r Hin.
  destruct (Z.eqb_spec (t_id r) (t_id rec)) as [Hid|Hid].
  - unfold unused, set_usedAt. cbn. apply andb_false_r.
  - destruct (String.eqb_spec (t_type r) "reset") as [Ht|Ht]; [|done].
    destruct (String.eqb_spec (t_tokenHash r) (sha256Hex raw)) as [Hh|Hh]; [|done].
    unfold unused. destruct (t_usedAt r) eqn:Hu; [done|].
    by specialize (Huniq r Hin Hh Ht Hu).
Qed.

(** The reset flow does consume: with a working database, the first
    redemption of an unexpired reset token succeeds and marks its record, and
    a second redemption of the same raw token answers 410. *)
Lemma reset_token_single_use (raw pw pw' : string) (now now' : Z) (w : World)
      (rec : TokenRow) :
  healthy w -> raw <> "" -> pw <> "" -> pw' <> "" ->
  lookup "reset" raw (db w) = Some rec ->
  now <= t_expiresAt rec ->
  List.existsb (fun u => u_id u =? t_userId rec) (users (db w)) = true ->
  (forall r, In r (tokens (db w)) -> t_tokenHash r = sha256Hex raw ->
             t_type r = "reset" -> t_usedAt r = None -> t_id r = t_id rec) ->
  let first := reset_password (Some {| token := Some raw; newPassword := Some pw;
                                       confirmPassword := Some pw |}) now w in
  let second := reset_password (Some {| token := Some raw; newPassword := Some pw';
                                        confirmPassword := Some pw' |}) now' first.2 in
  first.1 = Return (success ok_true) /\
  second.1 = Return (error (JStr "Token expired or invalid") 410) /\
  second.2 = first.2.
Proof.
  intros Hw Hraw Hpw Hpw' Hl Hnow Hu Huniq first second. subst first second.
  rewrite (reset_password_found raw pw now w rec Hw Hraw Hpw Hl Hu).
  assert (accepted_at now rec = true) as ->.
  { apply accepted_at_spec. by destruct (lookup_unused _ _ _ _ Hl) as (_ & _ & ? & _). }
  cbn [fst snd]. split; [done|].
  rewrite reset_password_not_found; [done | by apply healthy_with_db | done | done |].
  cbn [db with_db]. by apply (marked_lookup_none raw).
Qed.

End WithCrypto.

(** C4: both redeeming handlers reject with [expiresAt < now], so a record
    whose expiry equals the current instant is still accepted, although
    the validity rule [expiresAt > now] no longer holds for it. *)
Theorem redeem_accepts_record_at_its_expiry :
  ~ valid_at 1000 reset_row /\
  ~ valid_at 1000 idcard_row /\
  (@reset_password plain_crypto (Some new_password) 1000
     (world_of pending no_faults)).1 = Return (success ok_true) /\
  status_of (@verify plain_crypto "cafe" 1000 (world_of pending no_faults)).1
  = Some 200.
Proof.
  repeat split; try (intros [_ Hlt]; cbn in Hlt; lia); vm_compute; reflexivity.
Qed.

(** Past the expiry both handlers answer 410, used or not. *)
Lemma redeem_rejects_after_expiry :
  (@reset_password plain_crypto (Some new_password) 1001
     (world_of pending no_faults)).1
  = Return (error (JStr "Token expired or invalid") 410) /\
  (@verify plain_crypto "cafe" 1001 (world_of pending no_faults)).1
  = Return (error (JStr "Token expired or invalid") 410).
Proof. split; vm_compute; reflexivity. Qed.

(** The reset flow on the sample: a token issued by forgot-password is
    redeemed once, and the second attempt answers 410. *)
Lemma reset_token_redeemed_once_run :
  let raw := generateToken (fun _ => x00) 32 in
  let body := {| token := Some raw; newPassword := Some "N3w-pass!";
                 confirmPassword := Some "N3w-pass!" |} in
  let issued := @forgot_password plain_crypto production ask_reset_for_ada 0
                  (world_of registered no_faults) in
  let first := @reset_password plain_crypto (Some body) 10 issued.2 in
  let second := @reset_password plain_crypto (Some body) 20 first.2 in
  map m_url (outbox issued.2) = ["https://api.example.com/reset-password?token=" +:+ raw] /\
  status_of first.1 = Some 200 /\
  map t_usedAt (tokens (db first.2)) = [Some 10] /\
  status_of second.1 = Some 410.
Proof. repeat split; vm_compute; reflexivity. Qed.

(** C1: the id-card verification never sets [usedAt]: a token handed out
    by [generate] verifies with status 200 a first and a second time, and
    its record is still unused afterwards. *)
Theorem idcard_token_verifies_twice :
  let raw := generateToken (fun _ => x2a) 24 in
  let issued := @generate plain_crypto ask_token_for_blank_card 0
                          (world_of seeded no_faults) in
  let first := @verify plain_crypto raw 10 issued.2 in
  let second := @verify plain_crypto raw 20 first.2 in
  issued.1 = Return (success (JObj [("token", JStr raw);
                                    ("expiresAt", toISOString 600000)])) /\
  status_of first.1 = Some 200 /\
  status_of second.1 = Some 200 /\
  second.1 = first.1 /\
  map t_usedAt (tokens (db second.2)) = [None].
Proof. repeat split; vm_compute; reflexivity. Qed.

End Redeeming.

Module ResetUnit.
Import Js Http Crypto Jwt Db Handler Prisma AuthController.
Import Lifecycle Sample Steps Redeeming.

(** With the [tokens] table refusing writes, the reset request of the
    sample answers 400 after the password was replaced, and the token is
    still unused: the password changed while the token remains
    redeemable. *)
Lemma reset_changes_password_and_keeps_token :
  let before := world_of pending tokens_read_only in
  let out := @reset_password plain_crypto (Some new_password) 500 before in
  out.1 = Return (error (JStr "Failed to reset password") 400) /\
  map u_password (users (db before)) = ["$2a$8$old"] /\
  map u_password (users (db out.2)) = ["$2a$8$N3w-pass!"] /\
  tokens (db out.2) = tokens (db before) /\
  @lookup plain_crypto "reset" "feed" (db out.2) = Some reset_row.
Proof. repeat split; vm_compute; reflexivity. Qed.

(** With the [users] table refusing writes, the same request answers 400
    and leaves everything as it was: the token is not burned. *)
Lemma reset_failing_password_update_keeps_token :
  let before := world_of pending users_read_only in
  let out := @reset_password plain_crypto (Some new_password) 500 before in
  out.1 = Return (error (JStr "Failed to reset password") 400) /\
  out.2 = before.
Proof. repeat split; vm_compute; reflexivity. Qed.

Section WithCrypto.
Context `{WebCrypto}.

(** C3, as the handler has it: the password is replaced first and the
    record is marked afterwards, in two separate writes.  Whatever fails, a
    run ends in one of three states: nothing written and an error answer;
    the password replaced, the record untouched and the answer 400; or
    both written and the answer a success.  The record is never marked
    without the password having been replaced. *)
Theorem reset_password_outcomes (body : option ResetBody) (now : Z) (w : World) :
  let out := reset_password body now w in
  outbox out.2 = outbox w /\ failing out.2 = failing w /\
  ((db out.2 = db w /\ exists msg st, out.1 = Return (error (JStr msg) st))
   \/ exists b rec,
        body = Some b /\
        lookup "reset" (nullish (token b) "") (db w) = Some rec /\
        now <= t_expiresAt rec /\
        let changed :=
          password_set (t_userId rec) (hashSync (nullish (newPassword b) "") 8) (db w) in
        (db out.2 = changed /\
         out.1 = Return (error (JStr "Failed to reset password") 400)
         \/ db out.2 = marked (t_id rec) now changed /\
            out.1 = Return (success ok_true))).
Proof.
  unfold reset_password, try_catch. destruct body as [b|].
  2: { cbn. repeat split; left; eauto. }
  await reflexivity.
  destruct (negb (truthy (token b)) || negb (truthy (newPassword b))
            || negb (truthy (confirmPassword b))).
  { cbn. repeat split; left; eauto. }
  destruct (negb (String.eqb (nullish (newPassword b) "")
                             (nullish (confirmPassword b) ""))).
  { cbn. repeat split; left; eauto. }
  enter. unfold tokens_findFirst.
  match goal with |- context [bind (read Tokens ?q)] =>
    destruct (read_cases Tokens q w) as [E|E] end.
  2: { rewrite (bind_throw _ _ _ _ _ E). cbn. repeat split; left; eauto. }
  rewrite (bind_return _ _ _ _ _ E). enter.
  fold (lookup "reset" (nullish (token b) "") (db w)).
  destruct (lookup "reset" (nullish (token b) "") (db w)) as [rec|] eqn:Hl.
  2: { cbn. repeat split; left; eauto. }
  destruct (Z.ltb_spec (t_expiresAt rec) now) as [Hexp|Hexp].
  { cbn. repeat split; left; eauto. }
  enter.
  destruct (users_update_cases (t_userId rec)
              (set_password (hashSync (nullish (newPassword b) "") 8)) w) as [Eu|Eu].
  2: { rewrite (bind_throw _ _ _ _ _ Eu). cbn. repeat split; left; eauto. }
  rewrite (bind_return _ _ _ _ _ Eu). enter.
  match goal with |- context [bind (tokens_update ?i ?n) _ ?w1] =>
    destruct (tokens_update_cases i n w1) as [Et|Et] end.
  - rewrite (bind_return _ _ _ _ _ Et). cbn.
    repeat split. right. exists b, rec. repeat split; try done. by right.
  - rewrite (bind_throw _ _ _ _ _ Et). cbn.
    repeat split. right. exists b, rec. repeat split; try done. by left.
Qed.

End WithCrypto.
End ResetUnit.

Module Enumeration.
Import Js Http Crypto Jwt Db Handler Prisma AuthController.
Import Lifecycle Sample Steps.

Section WithCrypto.
Context `{WebCrypto}.

(** Every run of POST /auth/forgot-password answers 200 with [ok: true]. *)
Lemma forgot_password_always_succeeds (env : Env) (req : ForgotRequest)
      (now : Z) (w : World) :
  exists data,
    (forgot_password env req now w).1 = Return (success data) /\
    field "ok" data = Some (JBool true).
Proof.
  unfold forgot_password, try_catch.
  destruct (fr_body req) as [body|]; [|cbn; eauto].
  await reflexivity.
  destruct (String.eqb (lower (nullish body "")) ""); [cbn; eauto|].
  enter. unfold users_findFirst.
  match goal with |- context [bind (read Users ?q)] =>
    destruct (read_cases Users q w) as [E|E] end.
  2: { rewrite (bind_throw _ _ _ _ _ E). cbn. eauto. }
  rewrite (bind_return _ _ _ _ _ E). enter.
  match goal with |- context [List.find ?p ?l] =>
    destruct (List.find p l) as [user|] end; [|cbn; eauto].
  unfold tokens_create.
  match goal with |- context [bind (write Tokens ?f)] =>
    destruct (write_cases Tokens f w) as [Ec|Ec] end.
  2: { rewrite (bind_throw _ _ _ _ _ Ec). cbn. eauto. }
  rewrite (bind_return _ _ _ _ _ Ec). enter.
  destruct (is_development env); cbn; eauto.
Qed.

End WithCrypto.

(** C5: in production, the answer to a reset request for a registered
    address carries a [message] that the answer for an unregistered address
    lacks; both have status 200 and [ok: true]. *)
Theorem forgot_password_answer_reveals_account :
  let known := @forgot_password plain_crypto production ask_reset_for_ada 0
                 (world_of registered no_faults) in
  let unknown := @forgot_password plain_crypto production ask_reset_for_ada 0
                   (world_of unregistered no_faults) in
  known.1 = Return (success (JObj [("ok", JBool true);
              ("message", JStr "If an account exists with this email, a password reset link has been sent.")])) /\
  unknown.1 = Return (success (JObj [("ok", JBool true)])) /\
  known.1 <> unknown.1.
Proof.
  cbv zeta. split; [vm_compute; reflexivity|]. split; [vm_compute; reflexivity|].
  vm_compute. discriminate.
Qed.

End Enumeration.

(** * Further properties *)

Module CryptoFacts.
Import Js Crypto Notions.

Lemma byte_hex_shape (b : byte) :
  exists c1 c2, byte_hex b = String c1 (String c2 EmptyString) /\
                is_hex_char c1 = true /\ is_hex_char c2 = true /\
                Byte.of_N (16 * hex_value c1 + hex_value c2) = Some b.
Proof. destruct b; do 2 eexists; repeat split; reflexivity. Qed.

Lemma hex_cons (b : byte) (l : list byte) : hex (b :: l) = byte_hex b +:+ hex l.
Proof. reflexivity. Qed.

Lemma unhex_pair (a b : ascii) (rest : string) :
  unhex (String a (String b EmptyString) +:+ rest) =
  match Byte.of_N (16 * hex_value a + hex_value b), unhex rest with
  | Some x, Some l => Some (x :: l)
  | _, _ => None
  end.
Proof. reflexivity. Qed.

Lemma unhex_hex (l : list byte) : unhex (hex l) = Some l.
Proof.
  induction l as [|b l IH]; [done|].
  rewrite hex_cons. destruct (byte_hex_shape b) as (c1 & c2 & -> & _ & _ & Hb).
  by rewrite unhex_pair, Hb, IH.
Qed.

Lemma hex_length (l : list byte) : String.length (hex l) = (2 * length l)%nat.
Proof.
  induction l as [|b l IH]; [done|].
  rewrite hex_cons. destruct (byte_hex_shape b) as (c1 & c2 & -> & _).
  change (String.length (String c1 (String c2 EmptyString) +:+ hex l))
    with (S (S (String.length (hex l)))).
  rewrite IH. cbn [length]. lia.
Qed.

Lemma hex_alphabet (l : list byte) :
  forallb is_hex_char (String.list_ascii_of_string (hex l)) = true.
Proof.
  induction l as [|b l IH]; [done|].
  rewrite hex_cons. destruct (byte_hex_shape b) as (c1 & c2 & -> & H1 & H2 & _).
  change (String.list_ascii_of_string (String c1 (String c2 EmptyString) +:+ hex l))
    with (c1 :: c2 :: String.list_ascii_of_string (hex l)).
  cbn [forallb]. by rewrite H1, H2, IH.
Qed.

(** X1: for up to 65536 bytes, the most [crypto.getRandomValues] fills
    in one call, [generateToken(bytes)] returns a string of exactly
    [2 * bytes] characters, all of them lowercase hexadecimal digits;
    [sha256Hex] is twice as long as the digest. *)
Theorem generateToken_shape (getRandomValues : nat -> byte) (bytes : nat) :
  Z.of_nat bytes <= 65536 ->
  String.length (generateToken getRandomValues bytes) = (2 * bytes)%nat /\
  forallb is_hex_char
          (String.list_ascii_of_string (generateToken getRandomValues bytes)) = true /\
  forall (W : WebCrypto) (value : string),
    String.length (sha256Hex value) = (2 * length (digest value))%nat.
Proof.
  intros _. unfold generateToken, sha256Hex. split; [|split].
  - by rewrite hex_length, length_map, length_seq.
  - apply hex_alphabet.
  - intros W value. apply hex_length.
Qed.

Lemma generateToken_shape_witness :
  Z.of_nat 32 <= 65536 /\
  String.length (generateToken Sample.counting 32) = 64%nat /\
  forallb is_hex_char
          (String.list_ascii_of_string (generateToken Sample.counting 32)) = true.
Proof.
  assert (Z.of_nat 32 <= 65536) as Hb by lia.
  destruct (generateToken_shape Sample.counting 32 Hb) as (Hlen & Halpha & _).
  split; [exact Hb|]. split; [exact Hlen | exact Halpha].
Defined.

Lemma hex_inj (l1 l2 : list byte) : hex l1 = hex l2 -> l1 = l2.
Proof.
  intros Heq. assert (Some l1 = Some l2) as [= ->]; [|done].
  by rewrite <- !unhex_hex, Heq.
Qed.

(** X2: the hex form loses nothing: two runs of [generateToken] return the
    same token only if they drew the same bytes, and two values have the
    same [sha256Hex] exactly when they have the same digest. *)
Theorem hex_forms_distinguish (W : WebCrypto) :
  (forall (r1 r2 : nat -> byte) (bytes : nat),
     generateToken r1 bytes = generateToken r2 bytes ->
     forall i, (i < bytes)%nat -> r1 i = r2 i) /\
  (forall a b : string, sha256Hex a = sha256Hex b <-> digest a = digest b).
Proof.
  split.
  - intros r1 r2 bytes Heq i Hi. unfold generateToken in Heq.
    apply hex_inj in Heq.
    assert (map r1 (seq 0 bytes) !! i = map r2 (seq 0 bytes) !! i) as Hl
      by (by rewrite Heq).
    rewrite !list_lookup_fmap, lookup_seq_lt in Hl by done. cbn in Hl. congruence.
  - intros a b. unfold sha256Hex. split; [apply hex_inj | by intros ->].
Qed.

Lemma hex_forms_distinguish_witness :
  generateToken Sample.zeros 2
  = generateToken (fun i => if (i <? 2)%nat then x00 else xff) 2 /\
  Sample.zeros 1%nat = (fun i => if (i <? 2)%nat then x00 else xff) 1%nat.
Proof.
  assert (generateToken Sample.zeros 2
          = generateToken (fun i => if (i <? 2)%nat then x00 else xff) 2) as Heq
    by reflexivity.
  split; [exact Heq|].
  apply (proj1 (hex_forms_distinguish Sample.plain_crypto) _ _ 2%nat Heq 1%nat). lia.
Defined.

End CryptoFacts.

Module RateLimitMore.
Import Js Http RateLimit RateLimitFacts RateLimitWindow Notions Sample Fixtures.

Lemma rateLimit_other_keys opts c now (buckets : gmap string Bucket) (k' : string) :
  k' <> getKey opts c ->
  (rateLimit opts c now buckets).2 !! k' = buckets !! k'.
Proof.
  intros Hk. unfold rateLimit, reset_window.
  destruct (buckets !! getKey opts c) as [b|]; cbn.
  - destruct (resetAt b <=? now); cbn; [by rewrite lookup_insert_ne|].
    destruct (tokens b <=? 0); cbn; [done | by rewrite lookup_insert_ne].
  - by rewrite lookup_insert_ne.
Qed.

Lemma serve_other_keys opts c ts : forall (buckets : gmap string Bucket) (k' : string),
  k' <> getKey opts c ->
  (serve opts c ts buckets).2 !! k' = buckets !! k'.
Proof.
  induction ts as [|t ts IH]; intros buckets k' Hk; [done|]. cbn [serve].
  pose proof (rateLimit_other_keys opts c t buckets k' Hk) as H1.
  destruct (rateLimit opts c t buckets) as [r b1]. cbn in H1.
  specialize (IH b1 k' Hk). destruct (serve opts c ts b1) as [rs b2]. cbn in *.
  by rewrite IH.
Qed.

Lemma rateLimit_reply_local opts c now (b1 b2 : gmap string Bucket) :
  b1 !! getKey opts c = b2 !! getKey opts c ->
  (rateLimit opts c now b1).1 = (rateLimit opts c now b2).1.
Proof.
  intros Heq. unfold rateLimit, reset_window. rewrite Heq.
  destruct (b2 !! getKey opts c) as [b|]; [|done].
  destruct (resetAt b <=? now); [done|]. by destruct (tokens b <=? 0).
Qed.

(** X3: buckets are per key.  Whatever one client sent before, on whatever
    limited route, the answer to a request with a different key is the one
    it would have got without that traffic. *)
Theorem rateLimit_keys_are_independent
        (opts1 opts2 : RateLimitOptions) (c1 c2 : Ctx) (ts : list Z) (now : Z)
        (buckets : gmap string Bucket) :
  getKey opts2 c2 <> getKey opts1 c1 ->
  (rateLimit opts2 c2 now (serve opts1 c1 ts buckets).2).1 =
  (rateLimit opts2 c2 now buckets).1.
Proof.
  intros Hk. apply rateLimit_reply_local. by apply serve_other_keys.
Qed.

Lemma rateLimit_keys_are_independent_witness :
  getKey five_per_minute (anonymous "/api/auth/login") <> getKey five_per_minute a_client /\
  (rateLimit five_per_minute (anonymous "/api/auth/login") 7
     (serve five_per_minute a_client [0; 1; 2; 3; 4; 5; 6] ∅).2).1 = Next [].
Proof.
  assert (getKey five_per_minute (anonymous "/api/auth/login")
          <> getKey five_per_minute a_client) as Hk by (vm_compute; discriminate).
  split; [exact Hk|].
  rewrite (rateLimit_keys_are_independent five_per_minute five_per_minute
             a_client (anonymous "/api/auth/login") [0; 1; 2; 3; 4; 5; 6] 7 ∅ Hk).
  reflexivity.
Defined.

Section Ceiling.
Variables (opts : RateLimitOptions) (c : Ctx).

(** Inside a window a bucket lets through as many requests as it has
    tokens, and no more. *)
Lemma serve_count ts : forall (buckets : gmap string Bucket) b,
  buckets !! getKey opts c = Some b ->
  Forall (fun t => t < resetAt b) ts ->
  0 <= tokens b ->
  count_allowed (serve opts c ts buckets).1 = Nat.min (length ts) (Z.to_nat (tokens b)).
Proof.
  unfold count_allowed.
  induction ts as [|t ts IH]; intros buckets b Hb Hts Hk; [done|].
  inversion Hts as [|? ? Ht Hts']; subst. cbn [serve].
  destruct (Z.eq_dec (tokens b) 0) as [Hz|Hnz].
  - destruct (rateLimit_deny opts c t buckets b Hb Ht ltac:(lia)) as (Hden & _ & _ & Hbk).
    destruct (rateLimit opts c t buckets) as [r b1]. cbn in Hden, Hbk. subst b1.
    specialize (IH buckets b Hb Hts' Hk).
    destruct (serve opts c ts buckets) as [rs b2]. cbn [fst snd] in *. cbn [List.filter].
    rewrite Hden, IH, Hz. lia.
  - destruct (rateLimit_decrement opts c t buckets b Hb Ht ltac:(lia)) as [Hal Hbk].
    destruct (rateLimit opts c t buckets) as [r b1]. cbn in Hal, Hbk. subst b1.
    specialize (IH (<[getKey opts c := {| tokens := tokens b - 1; resetAt := resetAt b |}]> buckets)
                   {| tokens := tokens b - 1; resetAt := resetAt b |}).
    rewrite lookup_insert_eq in IH. specialize (IH eq_refl Hts' ltac:(cbn; lia)).
    destruct (serve opts c ts _) as [rs b2]. cbn [fst snd tokens] in *. cbn [List.filter].
    rewrite Hal. cbn [length]. rewrite IH. lia.
Qed.

(** X4: the ceiling.  Of any series of requests that starts a window and
    stays inside it, exactly the first [max] are let through: the number
    of requests served is the smaller of the number made and [max]. *)
Theorem rateLimit_ceiling (now : Z) (ts : list Z) (buckets : gmap string Bucket) :
  1 <= max opts ->
  fresh_or_over opts c now buckets ->
  Forall (fun t => t < now + windowMs opts) ts ->
  count_allowed (serve opts c (now :: ts) buckets).1
  = Nat.min (S (length ts)) (Z.to_nat (max opts)).
Proof.
  intros Hmax Hfresh Hts. cbn [serve].
  rewrite (rateLimit_reset opts c now buckets Hfresh).
  set (b0 := {| tokens := max opts - 1; resetAt := now + windowMs opts |}).
  pose proof (serve_count ts (<[getKey opts c := b0]> buckets) b0) as Hc.
  rewrite lookup_insert_eq in Hc. specialize (Hc eq_refl Hts ltac:(cbn; lia)).
  destruct (serve opts c ts _) as [rs b2]. unfold count_allowed in *.
  subst b0. cbn [fst tokens] in *. cbn [List.filter allowed length]. rewrite Hc. lia.
Qed.

End Ceiling.

Lemma rateLimit_ceiling_witness :
  1 <= max five_per_minute /\
  fresh_or_over five_per_minute a_client 0 ∅ /\
  count_allowed (serve five_per_minute a_client [0; 5; 10; 15; 20; 25; 30; 35] ∅).1 = 5%nat.
Proof.
  assert (Hf : fresh_or_over five_per_minute a_client 0 ∅) by (left; done).
  split; [cbn; lia|]. split; [exact Hf|].
  rewrite (rateLimit_ceiling five_per_minute a_client 0 [5; 10; 15; 20; 25; 30; 35] ∅);
    [reflexivity | cbn; lia | exact Hf | repeat constructor; cbn; lia].
Defined.

End RateLimitMore.

Module StepsMore.
Import Js Http Crypto Jwt Db Handler Prisma PrismaMore Steps.

Lemma tokens_deleteMany_healthy (w : World) (where_ : TokenRow -> bool) :
  healthy w ->
  tokens_deleteMany where_ w =
  (Return (Z.of_nat (length (List.filter where_ (tokens (db w))))),
   with_db w {| users := users (db w);
                tokens := List.filter (fun r => negb (where_ r)) (tokens (db w));
                tokens_seq := tokens_seq (db w);
                idCards := idCards (db w) |}).
Proof.
  intros Hw. unfold tokens_deleteMany.
  by rewrite (bind_return _ _ w w tt (call_healthy w _ _ Hw)).
Qed.

Lemma users_deleteMany_healthy (w : World) (where_ : User -> bool) :
  healthy w ->
  users_deleteMany where_ w =
  (let gone := List.filter where_ (users (db w)) in
   (Return (Z.of_nat (length gone)),
    with_db w {| users := List.filter (fun u => negb (where_ u)) (users (db w));
                 tokens := List.filter (fun r => negb (owned_by gone (t_userId r)))
                                       (tokens (db w));
                 tokens_seq := tokens_seq (db w);
                 idCards := List.filter (fun c => negb (owned_by gone (c_userId c)))
                                        (idCards (db w)) |})).
Proof.
  intros Hw. unfold users_deleteMany.
  by rewrite (bind_return _ _ w w tt (call_healthy w _ _ Hw)).
Qed.

Lemma users_update_returning_healthy (w : World) (id : Z) (change : User -> User) (u : User) :
  healthy w ->
  List.find (fun u => u_id u =? id) (users (db w)) = Some u ->
  users_update_returning id change w =
  (Return (change u),
   with_db w (set_users (map (fun u => if u_id u =? id then change u else u)
                             (users (db w))) (db w))).
Proof.
  intros Hw Hf. unfold users_update_returning.
  rewrite (bind_return _ _ w w tt (call_healthy w _ _ Hw)). by rewrite Hf.
Qed.

Lemma users_update_returning_cases (id : Z) (change : User -> User) (w : World) :
  (exists u, users_update_returning id change w =
     (Return (change u),
      with_db w (set_users (map (fun u => if u_id u =? id then change u else u)
                                (users (db w))) (db w))))
  \/ users_update_returning id change w = (Throw "PrismaClientKnownRequestError", w).
Proof.
  unfold users_update_returning, bind, call.
  destruct (failing w Users Writing); [auto|].
  destruct (List.find _ _); eauto.
Qed.

Lemma find_filter_kept {A} (p q : A -> bool) (l : list A) (x : A) :
  List.find p l = Some x -> q x = true -> List.find p (List.filter q l) = Some x.
Proof.
  induction l as [|y l IH]; [done|]. cbn. destruct (p y) eqn:Hp.
  - intros [= ->] Hq. rewrite Hq. cbn. by rewrite Hp.
  - intros Hf Hq. destruct (q y); [cbn; rewrite Hp|]; by apply IH.
Qed.

Lemma existsb_find_id {A} (p : A -> bool) (l : list A) :
  List.existsb p l = true <-> exists x, List.find p l = Some x.
Proof.
  induction l as [|y l IH]; cbn.
  - split; [discriminate | by intros [? ?]].
  - destruct (p y); [split; eauto | apply IH].
Qed.

Lemma filter_filter_length {A} (p q : A -> bool) (l : list A) :
  (length (List.filter p l) + length (List.filter q (List.filter (fun x => negb (p x)) l))
   = length (List.filter (fun x => p x || q x) l))%nat.
Proof.
  induction l as [|x l IH]; [done|]. cbn.
  destruct (p x); cbn; [lia|]. destruct (q x); cbn; lia.
Qed.

End StepsMore.

Module Cleanup.
Import Js Http Crypto Jwt Db Handler Prisma PrismaMore MaintenanceController.
Import Lifecycle Notions Sample Fixtures Steps StepsMore.

(** Whether the header is the configured secret. *)
Lemma unauthorized_spec (env : Env) (provided : option string) :
  unauthorized env provided = false <->
  exists s, s <> "" /\ provided = Some s /\ CRON_SECRET env = Some s.
Proof.
  unfold unauthorized, truthy. split.
  - destruct provided as [p|]; [|done]. destruct (CRON_SECRET env) as [s|].
    + destruct (String.eqb_spec p ""); [done|]. cbn.
      destruct (String.eqb_spec p s); [|done]. subst. eauto.
    + by rewrite orb_true_r.
  - intros (s & Hs & -> & ->). apply String.eqb_neq in Hs. rewrite Hs.
    by rewrite String.eqb_refl.
Qed.

(** X5: the cleanup runs only for the configured secret.  Without a
    non-empty [x-cron-secret] header equal to [CRON_SECRET], and in
    particular when no secret is configured, the answer is 401 and nothing
    is deleted. *)
Theorem cleanup_needs_the_secret (env : Env) (provided : option string) (now : Z)
        (w : World) :
  ~ (exists s, s <> "" /\ provided = Some s /\ CRON_SECRET env = Some s) ->
  cleanup env provided now w = (Return (error (JStr "Unauthorized") 401), w).
Proof.
  intros Hno. unfold cleanup, try_catch.
  destruct (unauthorized env provided) eqn:Hu; [done|].
  apply unauthorized_spec in Hu. contradiction.
Qed.

Lemma cleanup_needs_the_secret_witness :
  ~ (exists s, s <> "" /\ Some "guess" = Some s
               /\ CRON_SECRET {| CRON_SECRET := None; DEV_MODE := None |} = Some s) /\
  cleanup {| CRON_SECRET := None; DEV_MODE := None |} (Some "guess") 2000
          (world_of pending no_faults)
  = (Return (error (JStr "Unauthorized") 401), world_of pending no_faults).
Proof.
  assert (~ (exists s, s <> "" /\ Some "guess" = Some s
               /\ CRON_SECRET {| CRON_SECRET := None; DEV_MODE := None |} = Some s)) as Hno.
  { intros (s & _ & _ & Hs). cbn in Hs. discriminate. }
  split; [exact Hno|]. exact (cleanup_needs_the_secret _ _ 2000 _ Hno).
Defined.

(** The database after an authorized cleanup on a working database. *)
Lemma cleanup_run (env : Env) (s : string) (now : Z) (w : World) :
  healthy w -> s <> "" -> CRON_SECRET env = Some s ->
  let cutoff := now - thirty_days in
  let gone := List.filter (deleted_before cutoff) (users (db w)) in
  cleanup env (Some s) now w =
  (Return (success (JObj
     [("tokensDeleted",
       JNum (Z.of_nat (length (List.filter (expired_before now) (tokens (db w))))
             + Z.of_nat (length (List.filter used
                   (List.filter (fun r => negb (expired_before now r)) (tokens (db w)))))));
      ("usersDeleted", JNum (Z.of_nat (length gone)))])),
   with_db w
     {| users := List.filter (fun u => negb (deleted_before cutoff u)) (users (db w));
        tokens := List.filter (fun r => negb (owned_by gone (t_userId r)))
                    (List.filter (fun r => negb (used r))
                       (List.filter (fun r => negb (expired_before now r)) (tokens (db w))));
        tokens_seq := tokens_seq (db w);
        idCards := List.filter (fun c => negb (owned_by gone (c_userId c)))
                               (idCards (db w)) |}).
Proof.
  intros Hw Hs Henv cutoff gone. unfold cleanup, try_catch.
  assert (unauthorized env (Some s) = false) as ->
    by (apply unauthorized_spec; eauto).
  await (apply tokens_deleteMany_healthy, Hw).
  await (apply tokens_deleteMany_healthy; by apply healthy_with_db).
  await (apply users_deleteMany_healthy; by apply healthy_with_db).
  done.
Qed.

(** X6: after an authorized cleanup every token left is unused and not
    yet expired; every such token whose owner was not purged is still
    there; [tokensDeleted] counts each expired or used token exactly once;
    and the users left are those not soft-deleted for more than 30 days. *)
Theorem cleanup_leaves_the_live_tokens (env : Env) (s : string) (now : Z) (w : World) :
  healthy w -> s <> "" -> CRON_SECRET env = Some s ->
  let out := cleanup env (Some s) now w in
  let gone := List.filter (deleted_before (now - thirty_days)) (users (db w)) in
  (forall r, In r (tokens (db out.2)) ->
             accepted_at now r = true /\ In r (tokens (db w))) /\
  (forall r, In r (tokens (db w)) -> accepted_at now r = true ->
             owned_by gone (t_userId r) = false -> In r (tokens (db out.2))) /\
  out.1 = Return (success (JObj
     [("tokensDeleted",
       JNum (Z.of_nat (length (List.filter (fun r => expired_before now r || used r)
                                           (tokens (db w))))));
      ("usersDeleted", JNum (Z.of_nat (length gone)))])) /\
  users (db out.2) =
    List.filter (fun u => negb (deleted_before (now - thirty_days) u)) (users (db w)).
Proof.
  intros Hw Hs Henv out gone. subst out gone.
  rewrite (cleanup_run env s now w Hw Hs Henv). cbv zeta.
  cbn [fst snd db with_db tokens users].
  split; [|split; [|split]].
  - intros r Hin. apply filter_In in Hin as [Hin Hown].
    apply filter_In in Hin as [Hin Hused]. apply filter_In in Hin as [Hin Hexp].
    split; [|done]. unfold accepted_at, used, expired_before in *.
    apply negb_true_iff, negb_false_iff in Hused. by rewrite Hused, Hexp.
  - intros r Hin Hacc Hown. unfold accepted_at in Hacc.
    apply andb_true_iff in Hacc as [Hun Hexp].
    apply filter_In. split; [|by rewrite Hown].
    apply filter_In. split; [|unfold used; by rewrite Hun].
    apply filter_In. by split.
  - rewrite <- Nat2Z.inj_add, filter_filter_length. done.
  - done.
Qed.

Lemma cleanup_leaves_the_live_tokens_witness :
  healthy (world_of two_users no_faults) /\
  tokens (db (cleanup maintenance (Some "cron") 1000 (world_of two_users no_faults)).2)
  = [reset_row; idcard_row] /\
  tokens (db (cleanup maintenance (Some "cron") 1001 (world_of two_users no_faults)).2)
  = [] /\
  (cleanup maintenance (Some "cron") 1001 (world_of two_users no_faults)).1
  = Return (success (JObj [("tokensDeleted", JNum 2); ("usersDeleted", JNum 0)])).
Proof.
  split; [apply Issuing.healthy_no_faults|].
  destruct (cleanup_leaves_the_live_tokens maintenance "cron" 1001
              (world_of two_users no_faults) (Issuing.healthy_no_faults _)
              ltac:(discriminate) eq_refl) as (_ & _ & Hresp & _).
  split; [reflexivity|]. split; [reflexivity|]. exact Hresp.
Defined.

End Cleanup.

Module Retention.
Import Js Http Crypto Jwt Db Handler Prisma PrismaMore.
Import AuthController IdCardController AuthMore.
Import Lifecycle Notions Sample Fixtures Steps StepsMore Redeeming Cleanup.
Import MaintenanceController.

(** X7: a cleanup breaks no pending link: a record that a lookup by raw
    token finds, that has not expired at the time of the cleanup and whose
    owner is not purged, is found by the same lookup afterwards. *)
Theorem cleanup_keeps_pending_links `{WebCrypto} (env : Env) (s : string) (now : Z)
        (w : World) (type raw : string) (r : TokenRow) :
  healthy w -> s <> "" -> CRON_SECRET env = Some s ->
  lookup type raw (db w) = Some r ->
  now <= t_expiresAt r ->
  owned_by (List.filter (deleted_before (now - thirty_days)) (users (db w)))
           (t_userId r) = false ->
  lookup type raw (db (cleanup env (Some s) now w).2) = Some r.
Proof.
  intros Hw Hs Henv Hl Hnow Hown.
  rewrite (cleanup_run env s now w Hw Hs Henv). cbv zeta.
  destruct (lookup_unused _ _ _ _ Hl) as (_ & _ & Hu & _).
  unfold lookup in *. cbn [snd db with_db tokens].
  apply find_filter_kept; [|by rewrite Hown].
  apply find_filter_kept; [|unfold used, unused; by rewrite Hu].
  apply find_filter_kept; [done|].
  unfold expired_before. apply negb_true_iff, Z.ltb_ge. lia.
Qed.

Lemma cleanup_keeps_pending_links_witness :
  healthy (world_of two_users no_faults) /\
  @lookup plain_crypto "reset" "feed" two_users = Some reset_row /\
  @lookup plain_crypto "reset" "feed"
     (db (cleanup maintenance (Some "cron") 900 (world_of two_users no_faults)).2)
  = Some reset_row.
Proof.
  split; [apply Issuing.healthy_no_faults|]. split; [reflexivity|].
  apply (@cleanup_keeps_pending_links plain_crypto maintenance "cron" 900
           (world_of two_users no_faults) "reset" "feed" reset_row);
    [apply Issuing.healthy_no_faults | discriminate | reflexivity | reflexivity
    | cbn; lia | reflexivity].
Defined.

Lemma delete_account_run (jwtPayload : option Payload) (body : Json) (now : Z)
      (w : World) (uid : Z) :
  healthy w ->
  session_user jwtPayload = Some uid ->
  confirmed body = true ->
  has_user uid (db w) = true ->
  delete_account jwtPayload (Some body) now w =
  (Return (success (JObj [("scheduledAt", toISOString now)])),
   with_db w (scheduled uid now (db w))).
Proof.
  intros Hw Hu Hc Hex. unfold delete_account. rewrite Hu, Hc. cbn [negb].
  await (apply users_update_healthy; [exact Hw | exact Hex]). done.
Qed.

Lemma has_user_after_purge (uid at_ cutoff : Z) (us : list User) :
  List.existsb (fun u => u_id u =? uid) us = true ->
  List.existsb (fun u => u_id u =? uid)
    (List.filter (fun u => negb (deleted_before cutoff u))
       (map (fun u => if u_id u =? uid then set_deleted at_ u else u) us))
  = negb (at_ <? cutoff).
Proof.
  induction us as [|u us IH]; [done|]. cbn [List.existsb map List.filter].
  destruct (u_id u =? uid) eqn:Hid.
  - intros _. unfold deleted_before at 1. cbn [u_deletedAt set_deleted].
    destruct (at_ <? cutoff) eqn:Hlt; cbn [negb].
    + clear IH. induction us as [|v us IHus]; [done|]. cbn [map List.filter].
      destruct (u_id v =? uid) eqn:Hv.
      * unfold deleted_before at 1. cbn [u_deletedAt set_deleted]. by rewrite Hlt.
      * destruct (negb (deleted_before cutoff v)); [|done].
        cbn [List.existsb]. by rewrite Hv.
    + cbn [List.existsb u_id set_deleted]. by rewrite Hid.
  - intros Hex. cbn [orb] in Hex. specialize (IH Hex).
    destruct (negb (deleted_before cutoff u)); [|done].
    cbn [List.existsb]. by rewrite Hid.
Qed.

(** X8: a deleted account is kept for thirty days.  After
    [delete-account] at time [at_], a cleanup at time [now] removes the
    user exactly when [at_] lies more than 30 days before [now]. *)
Theorem deleted_account_is_purged_after_thirty_days
        (env : Env) (s : string) (jwtPayload : option Payload) (body : Json)
        (uid at_ now : Z) (w : World) :
  healthy w -> s <> "" -> CRON_SECRET env = Some s ->
  session_user jwtPayload = Some uid ->
  confirmed body = true ->
  has_user uid (db w) = true ->
  let scheduled := (delete_account jwtPayload (Some body) at_ w).2 in
  has_user uid (db (cleanup env (Some s) now scheduled).2)
  = negb (at_ <? now - 1000 * 60 * 60 * 24 * 30).
Proof.
  intros Hw Hs Henv Hu Hc Hex.
  rewrite (delete_account_run jwtPayload body at_ w uid Hw Hu Hc Hex). cbn [snd].
  rewrite (cleanup_run env s now _ (healthy_with_db w _ Hw) Hs Henv). cbv zeta.
  unfold has_user in *. cbn [snd db with_db users Notions.scheduled set_users].
  by apply has_user_after_purge.
Qed.

Lemma deleted_account_is_purged_after_thirty_days_witness :
  healthy (world_of two_users no_faults) /\
  has_user 1 two_users = true /\
  has_user 1 (db (cleanup maintenance (Some "cron") 2592000100
     (delete_account (Some ada_session) (Some (JObj [("confirm", JBool true)])) 100
        (world_of two_users no_faults)).2).2) = true /\
  has_user 1 (db (cleanup maintenance (Some "cron") 2592000101
     (delete_account (Some ada_session) (Some (JObj [("confirm", JBool true)])) 100
        (world_of two_users no_faults)).2).2) = false.
Proof.
  split; [apply Issuing.healthy_no_faults|]. split; [reflexivity|].
  split;
    rewrite (deleted_account_is_purged_after_thirty_days maintenance "cron"
               (Some ada_session) (JObj [("confirm", JBool true)]) 1 100 _
               (world_of two_users no_faults) (Issuing.healthy_no_faults _)
               ltac:(discriminate) eq_refl eq_refl eq_refl eq_refl);
    reflexivity.
Defined.

End Retention.

Module SignedMore.
Import Js Http Jwt TokenUtil Db Handler.

(** What [verifyToken] returns for a token made by
    [generateVerificationToken] under the same secret. *)
Lemma verifyToken_generated `{Library} (uid : Z) (mail secret : string) (now : Z) :
  verifyToken (generateVerificationToken uid mail secret) secret now =
  Return {| v_payload := {| userId := Some uid; email := Some mail;
                            purpose := Some "email-verification"; data := None;
                            exp := None; nbf := None; iat := None |};
            expired := false |}.
Proof.
  unfold verifyToken, generateVerificationToken.
  by rewrite SignedCredential.verify_sign_unexpiring.
Qed.

End SignedMore.

Module VerifyEmail.
Import Js Http Crypto Jwt Db Handler Prisma PrismaMore AuthController.
Import Lifecycle Notions Sample Fixtures Steps StepsMore.

Lemma find_some_existsb {A} (p : A -> bool) (l : list A) (x : A) :
  List.find p l = Some x -> List.existsb p l = true.
Proof. intros Hf. apply existsb_find_id. eauto. Qed.

Lemma find_id_updated (uid : Z) (change : User -> User) (us : list User) :
  (forall u, u_id (change u) = u_id u) ->
  List.find (fun u => u_id u =? uid)
            (map (fun u => if u_id u =? uid then change u else u) us)
  = change <$> List.find (fun u => u_id u =? uid) us.
Proof.
  intros Hid. induction us as [|u us IH]; [done|]. cbn.
  destruct (u_id u =? uid) eqn:Hu.
  - by rewrite Hid, Hu.
  - by rewrite Hu.
Qed.

Section WithLibrary.
Context `{Library}.

(** X9: the verification link works, once.  The token made for a user who
    is still unverified and still has that address marks the user verified
    at whatever time it is presented; presented again, it redirects to
    "already verified" and writes nothing. *)
Theorem verification_link_verifies_once (env : Env) (u : User) (now later : Z) (w : World) :
  healthy w ->
  List.find (fun x => u_id x =? u_id u) (users (db w)) = Some u ->
  u_emailVerified u = None ->
  let link := generateVerificationToken (u_id u) (u_email u) (JWT_SECRET env) in
  let first := verify_email env link now w in
  first = (Return (redirect "/email-verified?status=success"),
           with_db w (verified (u_id u) now (db w))) /\
  verify_email env link later first.2
  = (Return (redirect "/email-verified?status=already-verified"), first.2).
Proof.
  intros Hw Hf Hnone link first.
  assert (Hfirst : first = (Return (redirect "/email-verified?status=success"),
                            with_db w (verified (u_id u) now (db w)))).
  { subst first link. unfold verify_email, generateVerificationToken, sign, try_catch.
    fold (sign {| userId := Some (u_id u); email := Some (u_email u);
                  purpose := Some "email-verification"; data := None;
                  exp := None; nbf := None; iat := None |} (JWT_SECRET env)).
    fold (generateVerificationToken (u_id u) (u_email u) (JWT_SECRET env)).
    await (unfold lift; rewrite SignedMore.verifyToken_generated; reflexivity).
    cbn [v_payload expired is_email_verification purpose userId email negb].
    rewrite String.eqb_refl. cbn [negb].
    await (apply read_healthy, Hw). rewrite Hf.
    cbn [same_email]. rewrite String.eqb_refl, Hnone. cbn [negb].
    await (apply users_update_healthy; [exact Hw | by eapply find_some_existsb]).
    done. }
  split; [exact Hfirst|]. rewrite Hfirst. cbn [snd].
  subst link. unfold verify_email, generateVerificationToken, sign, try_catch.
  fold (sign {| userId := Some (u_id u); email := Some (u_email u);
                purpose := Some "email-verification"; data := None;
                exp := None; nbf := None; iat := None |} (JWT_SECRET env)).
  fold (generateVerificationToken (u_id u) (u_email u) (JWT_SECRET env)).
  await (unfold lift; rewrite SignedMore.verifyToken_generated; reflexivity).
  cbn [v_payload expired is_email_verification purpose userId email negb].
  rewrite String.eqb_refl. cbn [negb].
  await (apply read_healthy; by apply healthy_with_db).
  cbn [db with_db verified set_users users].
  rewrite find_id_updated by done. rewrite Hf. cbn [fmap option_fmap option_map].
  cbn [same_email u_email set_emailVerified u_emailVerified].
  rewrite String.eqb_refl. done.
Qed.

(** X10: whatever token is presented, the verification endpoint touches
    nothing but [emailVerified] of the user the token names: either the
    world is exactly as before, or the token decodes to an
    email-verification payload whose [userId] is the id of a stored,
    unverified user with the payload's address, the answer is the success
    redirect, and the one change is that the users with that id are marked
    verified at [now]. *)
Theorem verify_email_only_marks_verified (env : Env) (token : Wire) (now : Z) (w : World) :
  let out := verify_email env token now w in
  out.2 = w \/
  exists t uid user,
    token = Compact t /\
    userId (payload t) = Some uid /\
    is_email_verification (payload t) = true /\
    List.find (fun x => u_id x =? uid) (users (db w)) = Some user /\
    same_email (u_email user) (email (payload t)) = true /\
    u_emailVerified user = None /\
    out.1 = Return (redirect "/email-verified?status=success") /\
    out.2 = with_db w (verified uid now (db w)).
Proof.
  unfold verify_email. destruct token as [|s|t]; [by left| |]; unfold try_catch.
  - left. erewrite bind_throw; [done|]. unfold lift, verifyToken. cbn. reflexivity.
  - destruct (verifyToken (Compact t) (JWT_SECRET env) now) as [v|e] eqn:Hv;
      [|left; by rewrite (bind_throw _ _ w w e)].
    rewrite (bind_return _ _ w w v) by done. enter.
    rewrite (Purpose.verifyToken_payload _ _ _ _ Hv).
    destruct (is_email_verification (payload t)) eqn:Hp; cbn [negb]; [|by left].
    destruct (expired v); [by left|].
    destruct (userId (payload t)) as [uid|] eqn:Huid; [|by left].
    unfold users_findUnique.
    match goal with |- context [bind (read Users ?q)] =>
      destruct (read_cases Users q w) as [E|E] end;
      [|left; by rewrite (bind_throw _ _ _ _ _ E)].
    rewrite (bind_return _ _ _ _ _ E). enter.
    destruct (List.find (fun u => u_id u =? uid) (users (db w))) as [user|] eqn:Hf;
      [|by left].
    destruct (same_email (u_email user) (email (payload t))) eqn:Hm; cbn [negb];
      [|by left].
    destruct (u_emailVerified user) eqn:Hver; [by left|].
    assert (u_id user = uid) as Hid.
    { apply find_some in Hf as [_ Hid]. by apply Z.eqb_eq in Hid. }
    destruct (users_update_cases (u_id user) (set_emailVerified now) w) as [Eu|Eu].
    + right. exists t, uid, user. rewrite (bind_return _ _ _ _ _ Eu).
      rewrite Hid. by repeat split.
    + left. by rewrite (bind_throw _ _ _ _ _ Eu).
Qed.

(** X11: a link signed with another secret is refused.  When the
    signature under the server's secret differs from the one the token
    carries, the answer is 400 and nothing is written. *)
Theorem verify_email_refuses_foreign_signature
        (env : Env) (uid : Z) (mail forged : string) (now : Z) (w : World) :
  let claims := {| userId := Some uid; email := Some mail;
                   purpose := Some "email-verification"; data := None;
                   exp := None; nbf := None; iat := None |} in
  hs256 forged HS256_header claims <> hs256 (JWT_SECRET env) HS256_header claims ->
  verify_email env (generateVerificationToken uid mail forged) now w =
  (Return (error (JStr "Invalid or expired verification link. Please request a new one.")
                 400), w).
Proof.
  intros claims Hsig. apply String.eqb_neq in Hsig.
  unfold verify_email, generateVerificationToken, sign, try_catch.
  erewrite bind_throw; [reflexivity|].
  unfold lift, verifyToken, verify. cbn. fold claims. rewrite Hsig. cbn. reflexivity.
Qed.

End WithLibrary.

Lemma verification_link_verifies_once_witness :
  healthy (world_of two_users no_faults) /\
  List.find (fun x => u_id x =? u_id ada) (users two_users) = Some ada /\
  u_emailVerified ada = None /\
  map u_emailVerified
      (users (db (@verify_email plain_jwt production
         (@generateVerificationToken plain_jwt (u_id ada) (u_email ada)
                                     (JWT_SECRET production))
         90000000 (world_of two_users no_faults)).2))
  = [Some 90000000; Some 5].
Proof.
  split; [apply Issuing.healthy_no_faults|]. split; [reflexivity|]. split; [reflexivity|].
  rewrite (proj1 (@verification_link_verifies_once plain_jwt production ada
                    90000000 90000001 (world_of two_users no_faults)
                    (Issuing.healthy_no_faults _) eq_refl eq_refl)).
  reflexivity.
Defined.

Lemma verify_email_refuses_foreign_signature_witness :
  @hs256 plain_jwt "guess" HS256_header
     {| userId := Some 1; email := Some "ada@example.com";
        purpose := Some "email-verification"; data := None;
        exp := None; nbf := None; iat := None |}
  <> @hs256 plain_jwt (JWT_SECRET production) HS256_header
     {| userId := Some 1; email := Some "ada@example.com";
        purpose := Some "email-verification"; data := None;
        exp := None; nbf := None; iat := None |} /\
  @verify_email plain_jwt production
     (@generateVerificationToken plain_jwt 1 "ada@example.com" "guess") 10
     (world_of two_users no_faults)
  = (Return (error (JStr "Invalid or expired verification link. Please request a new one.")
                   400), world_of two_users no_faults).
Proof.
  assert (@hs256 plain_jwt "guess" HS256_header
     {| userId := Some 1; email := Some "ada@example.com";
        purpose := Some "email-verification"; data := None;
        exp := None; nbf := None; iat := None |}
  <> @hs256 plain_jwt (JWT_SECRET production) HS256_header
     {| userId := Some 1; email := Some "ada@example.com";
        purpose := Some "email-verification"; data := None;
        exp := None; nbf := None; iat := None |}) as Hne by (vm_compute; discriminate).
  split; [exact Hne|].
  exact (@verify_email_refuses_foreign_signature plain_jwt production 1
           "ada@example.com" "guess" 10 (world_of two_users no_faults) Hne).
Defined.

End VerifyEmail.

Module Sessions.
Import Js Http Crypto Jwt Db Handler Prisma PrismaMore Runtime RequireAdmin.
Import AuthController IdCardController AuthMore.
Import Lifecycle Notions Sample Fixtures Steps StepsMore Redeeming VerifyEmail.

Lemma find_email_updated (mail : string) (p : User -> bool) (change : User -> User)
      (us : list User) :
  (forall u, u_email (change u) = u_email u) ->
  List.find (fun u => String.eqb (u_email u) mail)
            (map (fun u => if p u then change u else u) us)
  = (fun u => if p u then change u else u)
      <$> List.find (fun u => String.eqb (u_email u) mail) us.
Proof.
  intros Hmail. induction us as [|u us IH]; [done|]. cbn.
  assert (u_email (if p u then change u else u) = u_email u) as ->
    by (destruct (p u); [apply Hmail | done]).
  by destruct (String.eqb (u_email u) mail).
Qed.

Section WithPlatform.
Context `{Library} `{WebCrypto} `{Bcrypt} `{Wire_format}.

Lemma login_run (env : Env) (data : LoginData) (now : Z) (w : World) :
  healthy w ->
  login env data now w =
  (match List.find (fun u => String.eqb (u_email u) (l_email data)) (users (db w)) with
   | None =>
       Return (error (JStr "User not found. Please check your credentials or sign up for a new account.") 401)
   | Some u =>
       if compareSync (l_password data) (u_password u) then
         Return (success (JObj
           [("token", JStr (compact (sign (session_payload u now) (JWT_SECRET env))));
            ("user", exclude_password u)]))
       else
         Return (error (JStr "Invalid email or password. Please check your credentials and try again.") 401)
   end, w).
Proof.
  intros Hw. unfold login. await (apply read_healthy, Hw).
  destruct (List.find _ _) as [u|]; [|done].
  by destruct (compareSync (l_password data) (u_password u)).
Qed.

(** X12: login reads and never writes, and it tells an unknown address
    from a wrong password: the first is answered "User not found ...", the
    second "Invalid email or password ...", both with status 401. *)
Theorem login_failures (env : Env) (data : LoginData) (now : Z) (w : World) :
  (login env data now w).2 = w /\
  (healthy w ->
   (List.find (fun u => String.eqb (u_email u) (l_email data)) (users (db w)) = None ->
    (login env data now w).1 =
    Return (error (JStr "User not found. Please check your credentials or sign up for a new account.") 401)) /\
   (forall u,
      List.find (fun u => String.eqb (u_email u) (l_email data)) (users (db w)) = Some u ->
      compareSync (l_password data) (u_password u) = false ->
      (login env data now w).1 =
      Return (error (JStr "Invalid email or password. Please check your credentials and try again.") 401))).
Proof.
  split.
  - unfold login, users_findFirst.
    match goal with |- context [bind (read Users ?q)] =>
      destruct (read_cases Users q w) as [E|E] end.
    2: { by rewrite (bind_throw _ _ _ _ _ E). }
    rewrite (bind_return _ _ _ _ _ E). enter.
    destruct (List.find _ _) as [u|]; [|done].
    by destruct (negb (compareSync (l_password data) (u_password u))).
  - intros Hw. rewrite (login_run env data now w Hw). split.
    + by intros ->.
    + intros u -> Hcmp. by rewrite Hcmp.
Qed.

(** X13: the token of a successful login opens the protected routes for
    one hour.  Until [exp] the JWT check returns the session payload, whose
    user id the handlers read and whose role decides [requireAdmin]; from
    [exp] on, while the clock in seconds still fits 31 bits (before
    2147483648000 ms), the check reports the token expired. *)
Theorem login_session_lasts_one_hour (env : Env) (data : LoginData) (now : Z)
        (w : World) (u : User) :
  healthy w -> 0 <= now -> u_id u <> 0 ->
  List.find (fun u => String.eqb (u_email u) (l_email data)) (users (db w)) = Some u ->
  compareSync (l_password data) (u_password u) = true ->
  let token := sign (session_payload u now) (JWT_SECRET env) in
  login env data now w =
    (Return (success (JObj [("token", JStr (compact token));
                            ("user", exclude_password u)])), w) /\
  (forall later, later / 1000 < now / 1000 + 3600 ->
     Jwt.verify token (JWT_SECRET env) later = inr (session_payload u now)) /\
  (forall later, now / 1000 + 3600 <= later / 1000 -> later < 2147483648000 ->
     Jwt.verify token (JWT_SECRET env) later = inl JwtTokenExpired) /\
  session_user (Some (session_payload u now)) = Some (u_id u) /\
  RateLimit.allowed (requireAdmin (Some (session_payload u now)))
  = String.eqb (u_role u) "ADMIN".
Proof.
  intros Hw Hnow Hid Hf Hcmp token. split; [|split; [|split; [|split]]].
  - rewrite (login_run env data now w Hw), Hf, Hcmp. done.
  - intros later Hl. subst token.
    rewrite SignedCredential.session_token_one_hour by done.
    destruct (Z.leb_spec (now / 1000 + 3600) (later / 1000)); [lia | done].
  - intros later Hl _. subst token.
    rewrite SignedCredential.session_token_one_hour by done.
    destruct (Z.leb_spec (now / 1000 + 3600) (later / 1000)); [done | lia].
  - cbn. apply Z.eqb_neq in Hid. by rewrite Hid.
  - unfold requireAdmin. cbn. by destruct (String.eqb (u_role u) "ADMIN").
Qed.

(** X14: reset, then log in.  After a successful reset with a new
    password, a login with the account's address and that password
    succeeds, provided [compareSync] accepts what [hashSync] made. *)
Theorem reset_then_login (env : Env) (raw pw : string) (now later : Z) (w : World)
        (rec : TokenRow) (u : User) :
  healthy w -> raw <> "" -> pw <> "" ->
  lookup "reset" raw (db w) = Some rec ->
  now <= t_expiresAt rec ->
  List.find (fun x => String.eqb (u_email x) (u_email u)) (users (db w)) = Some u ->
  u_id u = t_userId rec ->
  compareSync pw (hashSync pw 8) = true ->
  let reset := reset_password (Some {| token := Some raw; newPassword := Some pw;
                                       confirmPassword := Some pw |}) now w in
  reset.1 = Return (success ok_true) /\
  login env {| l_email := u_email u; l_password := pw |} later reset.2 =
  (Return (success (JObj
     [("token", JStr (compact (sign (session_payload u later) (JWT_SECRET env))));
      ("user", exclude_password (set_password (hashSync pw 8) u))])), reset.2).
Proof.
  intros Hw Hraw Hpw Hl Hnow Hf Hid Hcmp reset. subst reset.
  assert (List.existsb (fun x => u_id x =? t_userId rec) (users (db w)) = true) as Hex.
  { apply existsb_exists. exists u. split; [by apply find_some in Hf as [? _]|].
    rewrite Hid. apply Z.eqb_refl. }
  rewrite (reset_password_found raw pw now w rec Hw Hraw Hpw Hl Hex).
  assert (accepted_at now rec = true) as ->.
  { apply accepted_at_spec. by destruct (lookup_unused _ _ _ _ Hl) as (_ & _ & ? & _). }
  cbn [fst snd]. split; [done|].
  rewrite login_run by (by apply healthy_with_db).
  cbn [db with_db marked password_set set_users users l_email l_password].
  rewrite find_email_updated by done. rewrite Hf. cbn [fmap option_fmap option_map].
  rewrite Hid, Z.eqb_refl. cbn [u_password set_password]. rewrite Hcmp. done.
Qed.

End WithPlatform.

Lemma login_failures_witness :
  healthy (world_of two_users no_faults) /\
  (@login plain_jwt plain_bcrypt plain_format production
     {| l_email := "nobody@example.com"; l_password := "old" |} 0
     (world_of two_users no_faults)).1
  = Return (error (JStr "User not found. Please check your credentials or sign up for a new account.") 401) /\
  (@login plain_jwt plain_bcrypt plain_format production
     {| l_email := "ada@example.com"; l_password := "wrong" |} 0
     (world_of two_users no_faults)).1
  = Return (error (JStr "Invalid email or password. Please check your credentials and try again.") 401).
Proof.
  split; [apply Issuing.healthy_no_faults|]. split.
  - apply (proj2 (@login_failures plain_jwt plain_bcrypt plain_format production
                    {| l_email := "nobody@example.com"; l_password := "old" |} 0
                    (world_of two_users no_faults)) (Issuing.healthy_no_faults _)).
    reflexivity.
  - apply (proj2 (proj2 (@login_failures plain_jwt plain_bcrypt plain_format production
                    {| l_email := "ada@example.com"; l_password := "wrong" |} 0
                    (world_of two_users no_faults)) (Issuing.healthy_no_faults _)) ada);
      reflexivity.
Defined.

Lemma login_session_lasts_one_hour_witness :
  healthy (world_of two_users no_faults) /\
  0 <= 5000 /\ u_id grace <> 0 /\
  @compareSync plain_bcrypt "hopper" (u_password grace) = true /\
  @Jwt.verify plain_jwt (@sign plain_jwt (session_payload grace 5000) "s3cret")
     "s3cret" 3604999 = inr (session_payload grace 5000) /\
  @Jwt.verify plain_jwt (@sign plain_jwt (session_payload grace 5000) "s3cret")
     "s3cret" 3605000 = inl JwtTokenExpired /\
  RateLimit.allowed (requireAdmin (Some (session_payload grace 5000))) = true.
Proof.
  destruct (@login_session_lasts_one_hour plain_jwt plain_bcrypt plain_format production
              {| l_email := "grace@example.com"; l_password := "hopper" |} 5000
              (world_of two_users no_faults) grace (Issuing.healthy_no_faults _)
              ltac:(lia) ltac:(discriminate) eq_refl eq_refl)
    as (_ & Hin & Hout & _ & Hadmin).
  split; [apply Issuing.healthy_no_faults|]. split; [lia|]. split; [discriminate|].
  split; [reflexivity|]. split; [apply Hin; reflexivity|].
  split; [apply Hout; [discriminate | lia] | exact Hadmin].
Defined.

Lemma reset_then_login_witness :
  healthy (world_of pending no_faults) /\
  @lookup plain_crypto "reset" "feed" pending = Some reset_row /\
  @compareSync plain_bcrypt "N3w-pass!" (@hashSync plain_crypto "N3w-pass!" 8) = true /\
  status_of (@login plain_jwt plain_bcrypt plain_format production
     {| l_email := u_email ada; l_password := "N3w-pass!" |} 700
     (@reset_password plain_crypto
        (Some {| token := Some "feed"; newPassword := Some "N3w-pass!";
                 confirmPassword := Some "N3w-pass!" |}) 500
        (world_of pending no_faults)).2).1 = Some 200.
Proof.
  split; [apply Issuing.healthy_no_faults|]. split; [reflexivity|]. split; [reflexivity|].
  rewrite (proj2 (@reset_then_login plain_jwt plain_crypto plain_bcrypt plain_format
                    production "feed" "N3w-pass!" 500 700 (world_of pending no_faults)
                    reset_row ada (Issuing.healthy_no_faults _)
                    ltac:(discriminate) ltac:(discriminate) eq_refl
                    ltac:(cbn; lia) eq_refl eq_refl eq_refl)).
  reflexivity.
Defined.

End Sessions.

Module Profile.
Import Js Http Crypto Jwt Db Handler Prisma PrismaMore Runtime.
Import AuthController IdCardController ProfileController.
Import Lifecycle Notions Sample Fixtures Steps StepsMore VerifyEmail.

Lemma map_if_same {A} (p : A -> bool) (l : list A) :
  map (fun x => if p x then x else x) l = l.
Proof. induction l as [|x l IH]; [done|]. cbn. rewrite IH. by destruct (p x). Qed.

Section WithPlatform.
Context `{WebCrypto} `{Bcrypt}.

(** X15: a password change needs the current password and touches
    nothing else.  Every run leaves tokens, id cards and outgoing mail as
    they were (so outstanding reset links stay redeemable), and the users
    change only when [compareSync] accepted the current password: then the
    password of the session's user is replaced and the answer is a
    success. *)
Theorem password_changes_only_with_current (jwtPayload : option Payload)
        (body : Parsed PasswordChange) (w : World) :
  let out := change_password jwtPayload body w in
  tokens (db out.2) = tokens (db w) /\
  idCards (db out.2) = idCards (db w) /\
  outbox out.2 = outbox w /\
  (out.2 = w \/
   exists uid u data,
     body = Good data /\ session_user jwtPayload = Some uid /\
     List.find (fun x => u_id x =? uid) (users (db w)) = Some u /\
     compareSync (currentPassword data) (u_password u) = true /\
     out.2 = with_db w (password_set uid (hashSync (newPassword data) 8) (db w)) /\
     out.1 = Return (success ok_true)).
Proof.
  unfold change_password.
  destruct body as [| issues | data]; [by repeat split; left ..|].
  destruct (session_user jwtPayload) as [uid|]; [|by repeat split; left].
  unfold users_findUnique.
  match goal with |- context [bind (read Users ?q)] =>
    destruct (read_cases Users q w) as [E|E] end.
  2: { rewrite (bind_throw _ _ _ _ _ E). by repeat split; left. }
  rewrite (bind_return _ _ _ _ _ E). enter.
  destruct (List.find _ _) as [u|] eqn:Hf; [|by repeat split; left].
  destruct (compareSync (currentPassword data) (u_password u)) eqn:Hcmp;
    cbn [negb]; [|by repeat split; left].
  destruct (users_update_cases uid (set_password (hashSync (newPassword data) 8)) w)
    as [Eu|Eu].
  - rewrite (bind_return _ _ _ _ _ Eu). cbn. repeat split.
    right. exists uid, u, data. by repeat split.
  - rewrite (bind_throw _ _ _ _ _ Eu). by repeat split; left.
Qed.

End WithPlatform.

(** X16: PUT /user/profile without a name changes nothing and answers
    with the stored profile; with a name it replaces the name of the
    session's user only.  When the session's user no longer exists the
    update throws, where GET /user/profile answers 404. *)
Theorem update_profile_behaviour (jwtPayload : option Payload) (uid : Z) (w : World) :
  healthy w ->
  session_user jwtPayload = Some uid ->
  (List.find (fun x => u_id x =? uid) (users (db w)) = None ->
   forall name,
     update_profile jwtPayload (Good name) w
       = (Throw "PrismaClientKnownRequestError", w) /\
     get_profile jwtPayload w = (Return (error (JStr "User not found") 404), w)) /\
  (forall u,
     List.find (fun x => u_id x =? uid) (users (db w)) = Some u ->
     update_profile jwtPayload (Good None) w = (Return (success (profile_json u)), w) /\
     forall n,
       update_profile jwtPayload (Good (Some n)) w =
       (Return (success (JObj [("id", JNum (u_id u)); ("email", JStr (u_email u));
                               ("name", JStr n)])),
        with_db w (set_users
                     (map (fun x => if u_id x =? uid then set_name (Some n) x else x)
                          (users (db w))) (db w)))).
Proof.
  intros Hw Hu. split.
  - intros Hf name. split.
    + unfold update_profile. rewrite Hu.
      erewrite bind_throw; [reflexivity|].
      unfold users_update_returning.
      rewrite (bind_return _ _ w w tt (call_healthy w _ _ Hw)). by rewrite Hf.
    + unfold get_profile. rewrite Hu. await (apply read_healthy, Hw). by rewrite Hf.
  - intros u Hf. split.
    + unfold update_profile. rewrite Hu.
      await (eapply users_update_returning_healthy; [exact Hw | exact Hf]).
      unfold ret. f_equal. cbn [set_name]. rewrite map_if_same.
      destruct w as [[us ts sq cs] ob fl]. done.
    + intros n. unfold update_profile. rewrite Hu.
      await (eapply users_update_returning_healthy; [exact Hw | exact Hf]). done.
Qed.

Lemma update_profile_behaviour_witness :
  healthy (world_of two_users no_faults) /\
  session_user (Some ada_session) = Some 1 /\
  update_profile (Some ada_session) (Good (Some "Countess")) (world_of two_users no_faults)
  = (Return (success (JObj [("id", JNum 1); ("email", JStr "ada@example.com");
                            ("name", JStr "Countess")])),
     with_db (world_of two_users no_faults)
       (set_users [set_name (Some "Countess") ada; grace] two_users)) /\
  update_profile (Some ada_session) (Good None) (world_of unregistered no_faults)
  = (Throw "PrismaClientKnownRequestError", world_of unregistered no_faults).
Proof.
  split; [apply Issuing.healthy_no_faults|]. split; [reflexivity|]. split.
  - apply (proj2 (update_profile_behaviour (Some ada_session) 1
                    (world_of two_users no_faults) (Issuing.healthy_no_faults _) eq_refl)
                 ada eq_refl).
  - apply (proj1 (update_profile_behaviour (Some ada_session) 1
                    (world_of unregistered no_faults) (Issuing.healthy_no_faults _) eq_refl)
                 eq_refl None).
Defined.

End Profile.

Module Cards.
Import Js Http Crypto Jwt Db Handler Prisma PrismaMore Runtime.
Import AuthController IdCardController IdCardMore.
Import Lifecycle Notions Sample Fixtures Steps StepsMore Redeeming CryptoFacts.

Lemma find_by_id_unique (id : Z) (cs : list IdCard) (card : IdCard) :
  NoDup (map c_id cs) -> In card cs -> c_id card = id ->
  List.find (fun c => c_id c =? id) cs = Some card.
Proof.
  induction cs as [|c cs IH]; [done|]. intros Hnd Hin Hid. cbn.
  apply NoDup_cons in Hnd as [Hnotin Hnd].
  destruct Hin as [->|Hin].
  - by rewrite Hid, Z.eqb_refl.
  - destruct (Z.eqb_spec (c_id c) id) as [Heq|_]; [|by apply IH].
    exfalso. apply Hnotin. rewrite Heq, <- Hid. apply list_elem_of_In.
    by apply in_map.
Qed.

Lemma generated_token_not_empty (r : nat -> byte) (n : nat) :
  generateToken r (S n) <> "".
Proof.
  intros Heq. pose proof (hex_length (map r (seq 0 (S n)))) as Hl.
  unfold generateToken in Heq. rewrite Heq, length_map, length_seq in Hl.
  cbn in Hl. lia.
Qed.

Lemma find_app_last {A} (p : A -> bool) (l : list A) (x : A) :
  List.find p l = None -> p x = true -> List.find p (l ++ [x]) = Some x.
Proof.
  intros Hn Hp. induction l as [|y l IH]; cbn in *; [by rewrite Hp|].
  destruct (p y); [done | by apply IH].
Qed.

Lemma find_app_first {A} (p : A -> bool) (l l' : list A) (x : A) :
  List.find p l = Some x -> List.find p (l ++ l') = Some x.
Proof.
  induction l as [|y l IH]; [done|]. cbn. destruct (p y); [done | apply IH].
Qed.

Section WithCrypto.
Context `{WebCrypto}.

(** X17: what [generate] reports as the stored image is what the image
    endpoint serves.  For a card with both [imageUrl] and [publicId],
    [generate] answers with the URL and GET /id-card/:id/image answers with
    the same URL, ids being unique. *)
Theorem stored_image_is_served (req : GenerateRequest) (now : Z) (w : World)
        (uid id : Z) (card : IdCard) :
  healthy w ->
  session_user (gr_jwtPayload req) = Some uid ->
  gr_body req = Good (Some id) ->
  NoDup (map c_id (idCards (db w))) ->
  List.find (fun c => (c_id c =? id) && (c_userId c =? uid)) (idCards (db w)) = Some card ->
  truthy (c_imageUrl card) && truthy (c_publicId card) = true ->
  exists url,
    generate req now w =
      (Return (success (JObj [("url", JStr url);
                              ("publicId", JStr (nullish (c_publicId card) ""))])), w) /\
    image (Some id) w = (Return (success (JObj [("url", JStr url)])), w).
Proof.
  intros Hw Hu Hb Hnd Hf Himg. exists (nullish (c_imageUrl card) ""). split.
  - by rewrite (Issuing.generate_found req now w uid id card Hw Hu Hb Hf), Himg.
  - apply find_some in Hf as [Hin Hp]. apply andb_true_iff in Hp as [Hid _].
    apply Z.eqb_eq in Hid. apply andb_true_iff in Himg as [Hurl _].
    unfold image. await (apply read_healthy, Hw).
    rewrite (find_by_id_unique id _ card Hnd Hin Hid). by rewrite Hurl.
Qed.

(** X18: a freshly generated card token verifies within its ten
    minutes, and the answer names the owner and the first card of the owner,
    whichever card the token was generated for. *)
Theorem fresh_card_token_verifies (req : GenerateRequest) (now later : Z) (w : World)
        (uid id : Z) (card : IdCard) :
  healthy w ->
  session_user (gr_jwtPayload req) = Some uid ->
  gr_body req = Good (Some id) ->
  List.find (fun c => (c_id c =? id) && (c_userId c =? uid)) (idCards (db w)) = Some card ->
  truthy (c_imageUrl card) && truthy (c_publicId card) = false ->
  let raw := generateToken (gr_random req) 24 in
  lookup "idcard" raw (db w) = None ->
  later <= now + 1000 * 60 * 10 ->
  let issued := generate req now w in
  verify raw later issued.2 =
  (Return (success (JObj
     [("valid", JBool true);
      ("cardId", JStr (card_id_string
                         (List.find (fun c => c_userId c =? uid) (idCards (db w)))));
      ("owner", owner_json (List.find (fun u => u_id u =? uid) (users (db w))))])),
   issued.2).
Proof.
  intros Hw Hu Hb Hf Himg raw Hfresh Hlater issued. subst issued.
  rewrite (Issuing.generate_found req now w uid id card Hw Hu Hb Hf), Himg.
  cbv zeta. cbn [snd]. fold raw.
  assert (Hw' : healthy (with_db w (persisted (db w) uid "idcard" (sha256Hex raw)
                                              (now + 600000) now)))
    by (by apply healthy_with_db).
  unfold verify.
  destruct (String.eqb_spec raw "") as [Hempty|_];
    [by apply generated_token_not_empty in Hempty|].
  await (apply tokens_findFirst_healthy, Hw').
  unfold lookup in *. cbn [db with_db persisted tokens].
  rewrite (find_app_last _ _ _ Hfresh) by (cbn; by rewrite !String.eqb_refl).
  cbn [t_expiresAt t_userId].
  destruct (Z.ltb_spec (now + 600000) later); [lia|].
  await (apply read_healthy, Hw'). await (apply read_healthy, Hw'). done.
Qed.

End WithCrypto.

Lemma stored_image_is_served_witness :
  healthy (world_of seeded no_faults) /\
  NoDup (map c_id (idCards seeded)) /\
  @generate plain_crypto
     {| gr_jwtPayload := Some ada_session; gr_body := Good (Some 8);
        gr_random := counting |} 5 (world_of seeded no_faults)
  = (Return (success (JObj [("url", JStr "https://cdn.example.com/ada.png");
                            ("publicId", JStr "cards/ada")])),
     world_of seeded no_faults) /\
  image (Some 8) (world_of seeded no_faults)
  = (Return (success (JObj [("url", JStr "https://cdn.example.com/ada.png")])),
     world_of seeded no_faults).
Proof.
  assert (NoDup (map c_id (idCards seeded))) as Hnd.
  { cbn. apply NoDup_cons. split; [|apply NoDup_singleton].
    intros Hin. apply list_elem_of_singleton in Hin. discriminate. }
  split; [apply Issuing.healthy_no_faults|]. split; [exact Hnd|].
  destruct (@stored_image_is_served plain_crypto
              {| gr_jwtPayload := Some ada_session; gr_body := Good (Some 8);
                 gr_random := counting |} 5 (world_of seeded no_faults) 1 8 hosted_card
              (Issuing.healthy_no_faults _) eq_refl eq_refl Hnd eq_refl eq_refl)
    as (url & Hgen & Himg).
  assert (url = "https://cdn.example.com/ada.png") as ->.
  { assert ((@generate plain_crypto
     {| gr_jwtPayload := Some ada_session; gr_body := Good (Some 8);
        gr_random := counting |} 5 (world_of seeded no_faults)).1
      = Return (success (JObj [("url", JStr "https://cdn.example.com/ada.png");
                            ("publicId", JStr "cards/ada")]))) as Hc by reflexivity.
    rewrite Hgen in Hc. cbv in Hc. by inversion Hc. }
  split; [exact Hgen | exact Himg].
Defined.

(** The token is generated for the second blank card of the user; the
    answer names the first. *)
Lemma fresh_card_token_verifies_witness :
  let w := world_of {| users := [ada]; tokens := []; tokens_seq := 0;
                       idCards := [blank_card;
                                   {| c_id := 9; c_userId := 1; c_displayName := "Second";
                                      c_imageUrl := None; c_publicId := None |}] |}
                    no_faults in
  let req := {| gr_jwtPayload := Some ada_session; gr_body := Good (Some 9);
                gr_random := counting |} in
  healthy w /\
  @lookup plain_crypto "idcard" (generateToken counting 24) (db w) = None /\
  (@verify plain_crypto (generateToken (gr_random req) 24) 600000
           (@generate plain_crypto req 0 w).2).1
  = Return (success (JObj [("valid", JBool true); ("cardId", JStr "7");
                           ("owner", JObj [("id", JNum 1); ("name", JStr "Ada")])])).
Proof.
  intros w req. split; [apply Issuing.healthy_no_faults|]. split; [reflexivity|].
  rewrite (@fresh_card_token_verifies plain_crypto req 0 600000 w 1 9
             {| c_id := 9; c_userId := 1; c_displayName := "Second";
                c_imageUrl := None; c_publicId := None |}
             (Issuing.healthy_no_faults _) eq_refl eq_refl eq_refl eq_refl eq_refl
             ltac:(lia)).
  reflexivity.
Defined.

End Cards.

Module Paging.
Import Js Http Crypto Jwt Db Handler Prisma PrismaMore Runtime.
Import AuthController IdCardController IdCardMore.
Import Lifecycle Notions Sample Fixtures Steps StepsMore.

Lemma take_of_bounds (pageSize : Z) : 1 <= take_of pageSize <= 100.
Proof. unfold take_of. lia. Qed.

Lemma firstn_add {A} (a b : nat) (l : list A) :
  firstn (a + b) l = firstn a l ++ firstn b (skipn a l).
Proof.
  revert l. induction a as [|a IH]; intros l; [done|].
  destruct l as [|x l]; cbn; [by destruct b|]. by rewrite IH.
Qed.

(** X19: GET /id-card/list answers with the rows of the requested page
    of the session user's cards, the total number of those cards, the page
    as given and the page size clamped into 1..100; a page never has more
    rows than that size. *)
Theorem list_cards_page `{Wire_format} (jwtPayload : option Payload) (uid : Z)
        (page pageSize : option Z) (w : World) :
  healthy w ->
  session_user jwtPayload = Some uid ->
  let rows := page_rows (db w) uid (default 1 page) (default 10 pageSize) in
  let take := take_of (default 10 pageSize) in
  list_cards jwtPayload page pageSize w =
  (Return (success (JObj
     [("items", JObj (JArr_items rows));
      ("total", JNum (Z.of_nat (length
          (List.filter (fun c => c_userId c =? uid) (idCards (db w))))));
      ("page", JNum (default 1 page));
      ("pageSize", JNum take)])), w) /\
  1 <= take <= 100 /\
  Z.of_nat (length rows) <= take.
Proof.
  intros Hw Hu rows take. split; [|split].
  - unfold list_cards. rewrite Hu.
    await (apply read_healthy, Hw). await (apply read_healthy, Hw). done.
  - apply take_of_bounds.
  - subst rows take. unfold page_rows. rewrite length_firstn.
    pose proof (take_of_bounds (default 10 pageSize)). lia.
Qed.

Lemma list_cards_page_witness :
  healthy (world_of seeded no_faults) /\
  session_user (Some ada_session) = Some 1 /\
  (@list_cards plain_format (Some ada_session) (Some 2) (Some 1)
     (world_of seeded no_faults)).1
  = Return (success (JObj
      [("items", JObj [("0", JObj [("id", JNum 8); ("displayName", JStr "Ada");
                                   ("attributes", JObj [])])]);
       ("total", JNum 2); ("page", JNum 2); ("pageSize", JNum 1)])).
Proof.
  split; [apply Issuing.healthy_no_faults|]. split; [reflexivity|].
  rewrite (proj1 (@list_cards_page plain_format (Some ada_session) 1 (Some 2) (Some 1)
                    (world_of seeded no_faults) (Issuing.healthy_no_faults _) eq_refl)).
  reflexivity.
Defined.

Lemma page_rows_nth (d : Tables) (uid pageSize : Z) (k : nat) :
  page_rows d uid (Z.of_nat (S k)) pageSize =
  firstn (Z.to_nat (take_of pageSize))
         (skipn (k * Z.to_nat (take_of pageSize))
                (List.filter (fun c => c_userId c =? uid) (idCards d))).
Proof.
  unfold page_rows, skip_of. pose proof (take_of_bounds pageSize).
  replace (Z.to_nat ((Z.max 1 (Z.of_nat (S k)) - 1) * take_of pageSize))
    with (k * Z.to_nat (take_of pageSize))%nat; [done|].
  rewrite Z.max_r by lia. rewrite Z2Nat.inj_mul by lia. f_equal. lia.
Qed.

(** X20: the pages tile the list.  Pages [1..k] put one after the other
    are the first [k * take] cards of the user, each card once and in table
    order; and a page number below 1 gives page 1. *)
Theorem pages_tile_the_cards (d : Tables) (uid pageSize : Z) (k : nat) :
  concat (map (fun p => page_rows d uid (Z.of_nat p) pageSize) (seq 1 k))
  = firstn (k * Z.to_nat (take_of pageSize))
           (List.filter (fun c => c_userId c =? uid) (idCards d))
  /\ forall page, page <= 1 -> page_rows d uid page pageSize = page_rows d uid 1 pageSize.
Proof.
  split.
  - induction k as [|k IH]; [done|].
    rewrite seq_S, map_app, concat_app, IH. cbn [map concat Nat.add].
    rewrite app_nil_r, page_rows_nth.
    replace (S k * Z.to_nat (take_of pageSize))%nat
      with (k * Z.to_nat (take_of pageSize) + Z.to_nat (take_of pageSize))%nat by lia.
    by rewrite firstn_add.
  - intros page Hp. unfold page_rows, skip_of. by rewrite !Z.max_l by lia.
Qed.

Lemma pages_tile_the_cards_witness :
  (-3) <= 1 /\
  page_rows Sample.seeded 1 (-3) 1 = [Sample.blank_card].
Proof.
  split; [lia|].
  rewrite (proj2 (pages_tile_the_cards Sample.seeded 1 1 0) (-3)) by lia.
  reflexivity.
Defined.

End Paging.

Module Outstanding.
Import Js Http Crypto Jwt Db Handler Prisma PrismaMore Runtime.
Import AuthController IdCardController AuthMore.
Import Lifecycle Notions Sample Fixtures Steps StepsMore Redeeming Cards.

Section WithCrypto.
Context `{WebCrypto}.

(** What a reset request can do to the tables. *)
Lemma forgot_password_tables (env : Env) (req : ForgotRequest) (now : Z) (w : World) :
  (forgot_password env req now w).2 = w \/
  exists uid,
    db (forgot_password env req now w).2 =
    persisted (db w) uid "reset" (sha256Hex (generateToken (fr_random req) 32))
              (now + 1800000) now.
Proof.
  unfold forgot_password, try_catch.
  destruct (fr_body req) as [body|]; [|by left].
  await reflexivity.
  destruct (String.eqb (lower (nullish body "")) ""); [by left|].
  enter. unfold users_findFirst.
  match goal with |- context [bind (read Users ?q)] =>
    destruct (read_cases Users q w) as [E|E] end.
  2: { rewrite (bind_throw _ _ _ _ _ E). by left. }
  rewrite (bind_return _ _ _ _ _ E). enter.
  destruct (List.find _ _) as [user|]; [|by left].
  unfold tokens_create.
  match goal with |- context [bind (write Tokens ?f)] =>
    destruct (write_cases Tokens f w) as [Ec|Ec] end.
  2: { rewrite (bind_throw _ _ _ _ _ Ec). by left. }
  rewrite (bind_return _ _ _ _ _ Ec). enter.
  right. exists (u_id user). by destruct (is_development env).
Qed.

(** X21: a reset request for an ASCII address writes at most one token
    record and nothing else, and a mail leaves only after that record is
    stored, only to the address of the account found.  Every such run
    either leaves the world as it was, or stores the record for a user of
    the submitted address and, in production, hands over the reset link for
    that address. *)
Theorem forgot_password_effects (env : Env) (req : ForgotRequest) (now : Z) (w : World) :
  (forall body, fr_body req = Some body -> ascii_only (nullish body "") = true) ->
  let out := forgot_password env req now w in
  let raw := generateToken (fr_random req) 32 in
  out.2 = w \/
  exists body user,
    fr_body req = Some body /\
    List.find (fun u => String.eqb (u_email u) (lower (nullish body ""))) (users (db w))
      = Some user /\
    db out.2 = persisted (db w) (u_id user) "reset" (sha256Hex raw) (now + 1800000) now /\
    failing out.2 = failing w /\
    outbox out.2 =
      if is_development env then outbox w
      else outbox w ++
           [ {| m_to := u_email user;
                m_url := fr_origin req +:+ "/reset-password?token=" +:+ raw;
                m_name := if String.eqb (u_name user) "" then None
                          else Some (u_name user) |} ].
Proof.
  intros _. unfold forgot_password, try_catch.
  destruct (fr_body req) as [body|]; [|by left].
  await reflexivity.
  destruct (String.eqb (lower (nullish body "")) ""); [by left|].
  enter. unfold users_findFirst.
  match goal with |- context [bind (read Users ?q)] =>
    destruct (read_cases Users q w) as [E|E] end.
  2: { rewrite (bind_throw _ _ _ _ _ E). by left. }
  rewrite (bind_return _ _ _ _ _ E). enter.
  destruct (List.find _ _) as [user|] eqn:Hf; [|by left].
  unfold tokens_create.
  match goal with |- context [bind (write Tokens ?f)] =>
    destruct (write_cases Tokens f w) as [Ec|Ec] end.
  2: { rewrite (bind_throw _ _ _ _ _ Ec). by left. }
  rewrite (bind_return _ _ _ _ _ Ec). enter.
  right. exists body, user. split; [done|]. split; [done|].
  destruct (is_development env); cbn; done.
Qed.

(** What [generate] can do to the world. *)
Lemma generate_effects (req : GenerateRequest) (now : Z) (w : World) :
  (generate req now w).2 = w \/
  exists uid,
    (generate req now w).2 =
    with_db w (persisted (db w) uid "idcard"
                         (sha256Hex (generateToken (gr_random req) 24))
                         (now + 600000) now).
Proof.
  unfold generate.
  destruct (session_user (gr_jwtPayload req)) as [uid|]; [|by left].
  destruct (gr_body req) as [| issues | cardId]; [by left | by left |].
  unfold idCards_findFirst.
  match goal with |- context [bind (read IdCards ?q)] =>
    destruct (read_cases IdCards q w) as [E|E] end.
  2: { rewrite (bind_throw _ _ _ _ _ E). by left. }
  rewrite (bind_return _ _ _ _ _ E). enter.
  match goal with |- context [match ?x with Some _ => _ | None => ret _ end] =>
    destruct x as [card|] end; [|by left].
  destruct (truthy (c_imageUrl card) && truthy (c_publicId card)); [by left|].
  enter. unfold tokens_create.
  match goal with |- context [bind (write Tokens ?f)] =>
    destruct (write_cases Tokens f w) as [Ec|Ec] end.
  2: { rewrite (bind_throw _ _ _ _ _ Ec). by left. }
  rewrite (bind_return _ _ _ _ _ Ec). right. by exists uid.
Qed.

(** X22: issuing never retires an outstanding token.  A record found by
    a raw token before a reset request or a card-token request, whatever
    their outcome, is found by the same raw token after it: several tokens
    of one owner stay redeemable side by side. *)
Theorem issuing_keeps_outstanding_tokens
        (env : Env) (freq : ForgotRequest) (greq : GenerateRequest) (now : Z) (w : World)
        (type raw : string) (r : TokenRow) :
  lookup type raw (db w) = Some r ->
  lookup type raw (db (forgot_password env freq now w).2) = Some r /\
  lookup type raw (db (generate greq now w).2) = Some r.
Proof.
  intros Hl. split.
  - destruct (forgot_password_tables env freq now w) as [-> | (uid & ->)]; [done|].
    unfold lookup in *. cbn [persisted tokens]. by apply find_app_first.
  - destruct (generate_effects greq now w) as [-> | (uid & ->)]; [done|].
    unfold lookup in *. cbn [db with_db persisted tokens]. by apply find_app_first.
Qed.

End WithCrypto.

Lemma forgot_password_effects_witness :
  (forall body, fr_body ask_reset_for_ada = Some body ->
                ascii_only (nullish body "") = true) /\
  db (@forgot_password plain_crypto production ask_reset_for_ada 0
        (world_of registered no_faults)).2
  = persisted registered 1 "reset"
      (@sha256Hex plain_crypto (generateToken (fr_random ask_reset_for_ada) 32))
      1800000 0 /\
  map m_to (outbox (@forgot_password plain_crypto production ask_reset_for_ada 0
        (world_of registered no_faults)).2) = ["ada@example.com"].
Proof.
  assert (forall body, fr_body ask_reset_for_ada = Some body ->
                       ascii_only (nullish body "") = true) as Hascii
    by (by intros body [= <-]).
  split; [exact Hascii|].
  destruct (@forgot_password_effects plain_crypto production ask_reset_for_ada 0
              (world_of registered no_faults) Hascii)
    as [Hsame | (body & user & Hb & Hf & Hdb & _ & Hout)].
  - exfalso. apply (f_equal outbox) in Hsame. vm_compute in Hsame. discriminate.
  - injection Hb as <-. vm_compute in Hf. injection Hf as <-.
    split; [exact Hdb|]. rewrite Hout. reflexivity.
Defined.

Lemma issuing_keeps_outstanding_tokens_witness :
  @lookup plain_crypto "reset" "feed" (db (world_of pending no_faults)) = Some reset_row /\
  @lookup plain_crypto "reset" "feed"
     (db (@forgot_password plain_crypto production ask_reset_for_ada 10
            (world_of pending no_faults)).2) = Some reset_row /\
  length (tokens (db (@forgot_password plain_crypto production ask_reset_for_ada 10
            (world_of pending no_faults)).2)) = 3%nat.
Proof.
  split; [reflexivity|]. split; [|reflexivity].
  apply (@issuing_keeps_outstanding_tokens plain_crypto production ask_reset_for_ada
           ask_token_for_blank_card 10 (world_of pending no_faults) "reset" "feed"
           reset_row eq_refl).
Defined.

Section WithFormat.
Context `{Library} `{Wire_format}.

(** X23: asking for a verification mail writes nothing to the database,
    and a mail leaves only for a user who exists and is not yet verified: to
    that user's address, with a link that carries the token made for that
    user. *)
Theorem request_verification_effects (env : Env) (req : VerifyRequest) (w : World) :
  let out := request_verification env req w in
  db out.2 = db w /\ failing out.2 = failing w /\
  (outbox out.2 = outbox w \/
   exists user,
     In user (users (db w)) /\ u_emailVerified user = None /\
     outbox out.2 = outbox w ++
       [ {| m_to := u_email user;
            m_url := vr_origin req +:+ "/auth/verify-email?token="
                     +:+ compact (generateVerificationToken (u_id user) (u_email user)
                                                            (JWT_SECRET env));
            m_name := if String.eqb (u_name user) "" then None
                      else Some (u_name user) |} ]).
Proof.
  unfold request_verification, try_catch.
  assert (forall mail,
    let out := match verification_for env (vr_origin req) mail w with
               | (Return a, w') => (Return a, w')
               | (Throw _, w') =>
                   ret (error (JStr "An error occurred while processing your request.") 500) w'
               end in
    db out.2 = db w /\ failing out.2 = failing w /\
    (outbox out.2 = outbox w \/
     exists user,
       In user (users (db w)) /\ u_emailVerified user = None /\
       outbox out.2 = outbox w ++
         [ {| m_to := u_email user;
              m_url := vr_origin req +:+ "/auth/verify-email?token="
                       +:+ compact (generateVerificationToken (u_id user) (u_email user)
                                                              (JWT_SECRET env));
              m_name := if String.eqb (u_name user) "" then None
                        else Some (u_name user) |} ])) as Hmail.
  { intros mail. unfold verification_for.
    destruct (String.eqb mail ""); [by repeat split; left|].
    unfold users_findFirst.
    match goal with |- context [bind (read Users ?q)] =>
      destruct (read_cases Users q w) as [E|E] end.
    2: { rewrite (bind_throw _ _ _ _ _ E). by repeat split; left. }
    rewrite (bind_return _ _ _ _ _ E). enter.
    destruct (List.find _ _) as [user|] eqn:Hf; [|by repeat split; left].
    destruct (u_emailVerified user) eqn:Hv; [by repeat split; left|].
    cbn. repeat split. right. exists user.
    apply find_some in Hf as [Hin _]. by repeat split. }
  destruct (truthy (token_email (vr_jwtPayload req))); [apply Hmail|].
  destruct (vr_body req) as [body|]; [apply Hmail | by repeat split; left].
Qed.

End WithFormat.
End Outstanding.

Module SingleUse.
Import Js Http Crypto Jwt Db Handler Prisma PrismaMore Runtime.
Import AuthController IdCardController.
Import Lifecycle Notions Sample Fixtures Steps StepsMore Redeeming Cards.

Lemma find_none_all {A} (p : A -> bool) (l : list A) :
  (forall x, In x l -> p x = false) -> List.find p l = None.
Proof.
  induction l as [|x l IH]; intros Hall; [done|]. cbn.
  rewrite (Hall x (or_introl eq_refl)). apply IH. intros y Hy. apply Hall. by right.
Qed.

Section WithCrypto.
Context `{WebCrypto}.

(** X24: a reset token works once.  The raw token that forgot-password
    issues for an account, its hash being new to the table, is accepted by
    reset-password up to thirty minutes later, and after that first use any
    further reset with the same raw token is answered 410 and changes
    nothing. *)
Theorem issued_reset_token_redeems_once
        (env : Env) (req : ForgotRequest) (now t1 t2 : Z) (w : World)
        (body : option string) (user : User) (pw pw' : string) :
  healthy w ->
  fr_body req = Some body ->
  lower (nullish body "") <> "" ->
  List.find (fun u => String.eqb (u_email u) (lower (nullish body ""))) (users (db w))
    = Some user ->
  let raw := generateToken (fr_random req) 32 in
  (forall r, In r (tokens (db w)) -> t_tokenHash r <> sha256Hex raw) ->
  pw <> "" -> pw' <> "" ->
  t1 <= now + 1000 * 60 * 30 ->
  let issued := (forgot_password env req now w).2 in
  let first := reset_password (Some {| token := Some raw; newPassword := Some pw;
                                       confirmPassword := Some pw |}) t1 issued in
  let second := reset_password (Some {| token := Some raw; newPassword := Some pw';
                                        confirmPassword := Some pw' |}) t2 first.2 in
  first.1 = Return (success ok_true) /\
  second.1 = Return (error (JStr "Token expired or invalid") 410) /\
  second.2 = first.2.
Proof.
  intros Hw Hb He Hu raw Hfresh Hpw Hpw' Ht1 issued first second.
  set (row := {| t_id := tokens_seq (db w) + 1; t_userId := u_id user;
                 t_type := "reset"; t_tokenHash := sha256Hex raw;
                 t_expiresAt := now + 1800000; t_usedAt := None; t_createdAt := now |}).
  assert (Hold : List.find (fun r => String.eqb (t_type r) "reset"
                                    && String.eqb (t_tokenHash r) (sha256Hex raw)
                                    && unused r) (tokens (db w)) = None).
  { apply find_none_all. intros r Hin. specialize (Hfresh r Hin).
    apply String.eqb_neq in Hfresh. rewrite Hfresh. by rewrite andb_false_r. }
  assert (Hdb : db issued = persisted (db w) (u_id user) "reset" (sha256Hex raw)
                                      (now + 1800000) now).
  { subst issued. rewrite (Issuing.forgot_password_found env req now w body user Hw Hb He Hu).
    by destruct (is_development env). }
  assert (Hhealthy : healthy issued).
  { subst issued. rewrite (Issuing.forgot_password_found env req now w body user Hw Hb He Hu).
    destruct (is_development env); intros t a; apply Hw. }
  assert (Hl : lookup "reset" raw (db issued) = Some row).
  { rewrite Hdb. unfold lookup. cbn [persisted tokens].
    apply find_app_last; [exact Hold|]. cbn. by rewrite String.eqb_refl. }
  apply (reset_token_single_use raw pw pw' t1 t2 issued row Hhealthy
           (generated_token_not_empty _ _) Hpw Hpw' Hl).
  - cbn. lia.
  - rewrite Hdb. cbn [persisted users t_userId row]. apply existsb_exists.
    exists user. split; [by apply find_some in Hu as [? _] | apply Z.eqb_refl].
  - rewrite Hdb. cbn [persisted tokens]. intros r Hin Hhash _ _.
    apply in_app_or in Hin as [Hin|[<-|[]]]; [|done].
    by specialize (Hfresh r Hin).
Qed.

(** X25: an expired token is refused, used or not.  When the record found
    for a raw token has its expiry before [now], reset-password and the
    id-card verification answer 410 and leave the world as it is. *)
Theorem expired_token_is_refused (raw pw : string) (now : Z) (w : World) (rec : TokenRow) :
  healthy w -> raw <> "" -> pw <> "" ->
  t_expiresAt rec < now ->
  (lookup "reset" raw (db w) = Some rec ->
   reset_password (Some {| token := Some raw; newPassword := Some pw;
                           confirmPassword := Some pw |}) now w
   = (Return (error (JStr "Token expired or invalid") 410), w)) /\
  (lookup "idcard" raw (db w) = Some rec ->
   verify raw now w = (Return (error (JStr "Token expired or invalid") 410), w)).
Proof.
  intros Hw Hraw Hpw Hexp. apply String.eqb_neq in Hraw, Hpw.
  apply Z.ltb_lt in Hexp. split; intros Hl.
  - unfold reset_password, try_catch. await reflexivity.
    cbn [token newPassword confirmPassword truthy nullish].
    rewrite Hraw, Hpw, String.eqb_refl. cbn [negb orb].
    await (apply tokens_findFirst_healthy, Hw). by rewrite Hl, Hexp.
  - unfold verify. rewrite Hraw.
    await (apply tokens_findFirst_healthy, Hw). by rewrite Hl, Hexp.
Qed.

End WithCrypto.

Lemma issued_reset_token_redeems_once_witness :
  let raw := generateToken (fr_random ask_reset_for_ada) 32 in
  let body := {| token := Some raw; newPassword := Some "N3w-pass!";
                 confirmPassword := Some "N3w-pass!" |} in
  let issued := (@forgot_password plain_crypto production ask_reset_for_ada 0
                   (world_of registered no_faults)).2 in
  healthy (world_of registered no_faults) /\
  (forall r, In r (tokens registered) -> t_tokenHash r <> @sha256Hex plain_crypto raw) /\
  (@reset_password plain_crypto (Some body) 1800000 issued).1
  = Return (success ok_true) /\
  (@reset_password plain_crypto (Some body) 1800001
     (@reset_password plain_crypto (Some body) 1800000 issued).2).1
  = Return (error (JStr "Token expired or invalid") 410).
Proof.
  intros raw body issued.
  assert (forall r, In r (tokens registered) -> t_tokenHash r <> @sha256Hex plain_crypto raw)
    as Hfresh by (intros r []).
  destruct (@issued_reset_token_redeems_once plain_crypto production ask_reset_for_ada
              0 1800000 1800001 (world_of registered no_faults)
              (Some "ada@example.com") ada "N3w-pass!" "N3w-pass!"
              (Issuing.healthy_no_faults _) eq_refl ltac:(discriminate) eq_refl
              Hfresh ltac:(discriminate) ltac:(discriminate) ltac:(lia))
    as (Hfirst & Hsecond & _).
  split; [apply Issuing.healthy_no_faults|]. split; [exact Hfresh|].
  split; [exact Hfirst | exact Hsecond].
Defined.

Lemma expired_token_is_refused_witness :
  healthy (world_of pending no_faults) /\
  t_expiresAt reset_row < 1001 /\
  @lookup plain_crypto "reset" "feed" pending = Some reset_row /\
  @reset_password plain_crypto (Some new_password) 1001 (world_of pending no_faults)
  = (Return (error (JStr "Token expired or invalid") 410), world_of pending no_faults).
Proof.
  split; [apply Issuing.healthy_no_faults|]. split; [cbn; lia|]. split; [reflexivity|].
  apply (proj1 (@expired_token_is_refused plain_crypto "feed" "N3w-pass!" 1001
                  (world_of pending no_faults) reset_row (Issuing.healthy_no_faults _)
                  ltac:(discriminate) ltac:(discriminate) ltac:(cbn; lia))).
  reflexivity.
Defined.

End SingleUse.
